(** * Elu: browser-automation control logic of [streamlit_app.py]

    A shallow embedding of the message dispatcher, the group-name watchdog,
    the reverter, the element locator and the start/stop orchestration, with
    the properties the specification states about them. *)

From Stdlib Require Import ZArith Ascii String List Lia Bool DecimalString.
From stdpp Require Import base strings list gmap.

Local Open Scope Z_scope.


(** ** Python values that the embedding needs *)

(** A Python [str] is embedded as a Rocq [string], one [ascii] per code point
    (code points 0..255). *)

Module PyStr.

(** [str.isspace] on one code point below 256: TAB..CR, FS..US, space,
    NEL (133) and NBSP (160). *)
Definition isspace (c : ascii) : bool :=
  let n := N_of_ascii c in
  ((9 <=? n) && (n <=? 13) || (28 <=? n) && (n <=? 32)
   || (n =? 133) || (n =? 160))%N.

(** [str.lower] on one code point below 256: A..Z and the Latin-1 capitals
    (192..222 but the multiplication sign 215) move up by 32. *)
Definition lower_char (c : ascii) : ascii :=
  let n := N_of_ascii c in
  if ((65 <=? n) && (n <=? 90)
      || (192 <=? n) && (n <=? 222) && negb (n =? 215))%N
  then ascii_of_N (n + 32) else c.

Fixpoint lower (s : string) : string :=
  match s with
  | EmptyString => EmptyString
  | String c s' => String (lower_char c) (lower s')
  end.

Fixpoint lstrip (s : string) : string :=
  match s with
  | EmptyString => EmptyString
  | String c s' => if isspace c then lstrip s' else s
  end.

Fixpoint rstrip (s : string) : string :=
  match s with
  | EmptyString => EmptyString
  | String c s' =>
      match rstrip s' with
      | EmptyString => if isspace c then EmptyString else String c EmptyString
      | r => String c r
      end
  end.

(** [s.strip()] *)
Definition strip (s : string) : string := rstrip (lstrip s).

(** [s.split(sep)] for a one-character separator: never the empty list,
    [''.split(';') == ['']]. *)
Fixpoint split (sep : ascii) (s : string) : list string :=
  match s with
  | EmptyString => [EmptyString]
  | String c s' =>
      if Ascii.eqb c sep then EmptyString :: split sep s'
      else match split sep s' with
           | h :: t => String c h :: t
           | [] => [String c EmptyString]
           end
  end.

Fixpoint index_of (ch : ascii) (s : string) : option nat :=
  match s with
  | EmptyString => None
  | String c s' =>
      if Ascii.eqb c ch then Some O
      else option_map S (index_of ch s')
  end.

(** [s.find(ch)]: the first position of [ch], or -1. *)
Definition find (ch : ascii) (s : string) : Z :=
  match index_of ch s with
  | Some n => Z.of_nat n
  | None => -1
  end.

Fixpoint take (n : nat) (s : string) : string :=
  match n, s with
  | S n', String c s' => String c (take n' s')
  | _, _ => EmptyString
  end.

Fixpoint drop (n : nat) (s : string) : string :=
  match n, s with
  | S n', String _ s' => drop n' s'
  | _, _ => s
  end.

(** A slice bound as Python normalises it: a negative bound counts from the
    end, and every bound is clamped to [0, len]. *)
Definition bound (s : string) (i : Z) : nat :=
  let len := Z.of_nat (String.length s) in
  Z.to_nat (if i <? 0 then Z.max 0 (len + i) else Z.min i len).

(** [s[:i]] and [s[i:]] *)
Definition slice_to (s : string) (i : Z) : string := take (bound s i) s.
Definition slice_from (s : string) (i : Z) : string := drop (bound s i) s.

(** [sub in s] *)
Fixpoint contains (sub s : string) : bool :=
  String.prefix sub s ||
  match s with
  | EmptyString => false
  | String _ s' => contains sub s'
  end.

(** Truth value of a string: [bool(s)]. *)
Definition truthy (s : string) : bool :=
  match s with EmptyString => false | _ => true end.

End PyStr.

(** Outcome of running Python code: a value, an exception carrying its
    message ([str(e)]), or no outcome within the fuel given to a [while]. *)
Inductive Res (A : Type) : Type :=
| Ok (a : A)
| Raised (e : string)
| Diverged.
Arguments Ok {A} a.
Arguments Raised {A} e.
Arguments Diverged {A}.

(** [a % b] on Python integers: the sign follows the divisor, as [Z.modulo]. *)
Definition py_mod (a b : Z) : Res Z :=
  if b =? 0 then Raised "integer division or modulo by zero" else Ok (a mod b).

(** [l[k]] on a Python list: a negative index counts from the end. *)
Definition py_getitem {A} (l : list A) (k : Z) : Res A :=
  let len := Z.of_nat (length l) in
  let k' := if k <? 0 then k + len else k in
  if (k' <? 0) || (len <=? k') then Raised "list index out of range"
  else match nth_error l (Z.to_nat k') with
       | Some x => Ok x
       | None => Raised "list index out of range"
       end.

(** ** Run state *)

Module AutomationState.
Record t : Type := Make {
  running : bool;
  message_count : Z;
  logs : list string;
  message_rotation_index : Z
}.

(** [AutomationState()] *)
Definition init : t := Make false 0 [] 0.

Definition set_running (b : bool) (s : t) : t :=
  Make b (message_count s) (logs s) (message_rotation_index s).
Definition set_message_count (n : Z) (s : t) : t :=
  Make (running s) n (logs s) (message_rotation_index s).
Definition set_logs (l : list string) (s : t) : t :=
  Make (running s) (message_count s) l (message_rotation_index s).
Definition set_message_rotation_index (i : Z) (s : t) : t :=
  Make (running s) (message_count s) (logs s) i.

Arguments set_running b s /.
Arguments set_message_count n s /.
Arguments set_logs l s /.
Arguments set_message_rotation_index i s /.
End AutomationState.

Module LockState.
Record t : Type := Make {
  running : bool;
  logs : list string
}.

(** [LockState()] *)
Definition init : t := Make false [].

Definition set_running (b : bool) (s : t) : t := Make b (logs s).
Definition set_logs (l : list string) (s : t) : t := Make (running s) l.

Arguments set_running b s /.
Arguments set_logs l s /.
End LockState.

(** ** Message rotation *)

(** [get_next_message(messages, automation_state)]. The state object is
    updated in place by the source; here the updated object is returned next
    to the result. An [AutomationState] object is always true, so
    [if automation_state:] tests for [None]. *)
Definition get_next_message (messages : list string)
    (automation_state : option AutomationState.t)
  : Res string * option AutomationState.t :=
  match messages with
  | [] => (Ok "Hello!", automation_state)
  | _ =>
      match automation_state with
      | Some st =>
          let i := AutomationState.message_rotation_index st in
          match py_mod i (Z.of_nat (length messages)) with
          | Ok k =>
              match py_getitem messages k with
              | Ok message =>
                  (Ok message,
                   Some (AutomationState.set_message_rotation_index (i + 1) st))
              | Raised e => (Raised e, Some st)
              | Diverged => (Diverged, Some st)
              end
          | Raised e => (Raised e, Some st)
          | Diverged => (Diverged, Some st)
          end
      | None => (py_getitem messages 0, None)
      end
  end.

(** [n] successive calls on the same state object, with the results in call
    order. *)
Fixpoint successive_messages (n : nat) (messages : list string)
    (automation_state : option AutomationState.t) : list (Res string) :=
  match n with
  | O => []
  | S n' =>
      let '(r, st') := get_next_message messages automation_state in
      r :: successive_messages n' messages st'
  end.

(** ** The browser, the clock and the user interface as an environment *)

(** A handle on one element of the page ([WebElement]). *)
Definition Element : Type := nat.

(** The JavaScript sources handed to [driver.execute_script], named by what
    they do; what each returns is the environment's answer. *)
Inductive Script : Type :=
| ScrollToBottom | ScrollToTop          (* find_message_input, lines 209, 211 *)
| IsEditable | ElementText              (* find_message_input, lines 247, 253 *)
| SetMessage | ClickSendButton | PressEnter  (* send_messages, lines 382, 399, 408 *)
| ReadGroupName                         (* monitor_and_lock_group, line 515 *)
| ClickInfoButton | ClickEditButton | SetNameInput
| ClickSaveButton | ClickCloseButton.   (* revert_group_name, lines 553..600 *)

Inductive Arg : Type :=
| ArgElement (e : Element)
| ArgStr (s : string).

(** What a script of this program hands back: [null]/[undefined], a boolean
    or a string. *)
Inductive Value : Type :=
| VNone
| VBool (b : bool)
| VStr (s : string).

(** What a thread does to the outside, in the order it does it. [EEnter f]
    is a ghost mark left when the function [f] is entered; the others are
    calls of the WebDriver client and of [time.sleep] (in milliseconds). *)
Inductive Event : Type :=
| EChrome (executable_path : option string)
| ESetWindowSize (w h : Z)
| EGet (url : string)
| EAddCookie (name value : string)
| EExecuteScript (js : Script) (args : list Arg)
| EFindElements (selector : string)
| EIsDisplayed (e : Element)
| ESize (e : Element)
| EClick (e : Element)
| ETitle
| ECurrentUrl
| EPageSource
| EQuit
| ESleep (ms : Z)
| EEnter (fn : string).

(** The environment of a thread. Every answer may depend on all that the
    thread did before: [env_raises h ev] says whether the call [ev] made
    after the history [h] raises, and with which message; the other fields
    are the values handed back when it does not. [env_stop h] says whether
    the interface thread ran the stop handler during the sleep that follows
    [h]. *)
Record Env : Type := {
  env_raises : list Event -> Event -> option string;
  env_script : list Event -> Script -> list Arg -> Value;
  env_elements : list Event -> string -> list Element;
  env_displayed : list Event -> Element -> bool;
  env_size : list Event -> Element -> Z * Z;
  env_title : list Event -> string;
  env_url : list Event -> string;
  env_source : list Event -> string;
  env_clock : list Event -> string;
  env_stop : list Event -> bool;
  env_chromedriver_path : option string
}.

(** ** The embedded sqlite database *)

Record UserRow : Type := {
  password : string;
  lock_enabled : bool
}.

(** A row of [lock_config]; [None] is SQL NULL, and for the nicknames also an
    empty or unreadable JSON text. *)
Record LockConfigRow : Type := {
  row_chat_id : option string;
  row_locked_group_name : option string;
  row_locked_nicknames : option (gmap string string);
  row_cookies : option string
}.

Record Db : Type := {
  users : gmap string UserRow;
  lock_config : gmap string LockConfigRow
}.

(** The dictionary [get_lock_config] returns and the watchdog reads with
    [.get]; [None] is a key that is missing. *)
Record LockConfig : Type := {
  chat_id : option string;
  locked_group_name : option string;
  locked_nicknames : gmap string string;
  cookies : option string
}.

(** The dictionary [send_messages] reads with [.get]. *)
Record AutomationConfig : Type := {
  cfg_cookies : option string;
  cfg_chat_id : option string;
  cfg_delay : option Z;
  cfg_messages : option string;
  cfg_name_prefix : option string
}.

(** [get_lock_enabled(username)] *)
Definition get_lock_enabled (username : string) (d : Db) : bool :=
  match users d !! username with
  | Some row => lock_enabled row
  | None => false
  end.

(** [set_lock_enabled(username, value)]: an UPDATE, so a user without a row
    stays without one. *)
Definition set_lock_enabled (username : string) (value : bool) (d : Db) : Db :=
  {| users :=
       match users d !! username with
       | Some row =>
           <[username := {| password := password row; lock_enabled := value |}]>
             (users d)
       | None => users d
       end;
     lock_config := lock_config d |}.

Definition or_empty (o : option string) : string :=
  match o with
  | Some s => s
  | None => ""
  end.

(** [get_lock_config(username)] *)
Definition get_lock_config (username : string) (d : Db) : LockConfig :=
  match lock_config d !! username with
  | None =>
      {| chat_id := Some ""; locked_group_name := Some "";
         locked_nicknames := ∅; cookies := Some "" |}
  | Some row =>
      {| chat_id := Some (or_empty (row_chat_id row));
         locked_group_name := Some (or_empty (row_locked_group_name row));
         locked_nicknames :=
           match row_locked_nicknames row with
           | Some m => m
           | None => ∅
           end;
         cookies := Some (or_empty (row_cookies row)) |}
  end.

(** ** Shared run-state objects *)

(** What [log_message], [setup_browser] and [find_message_input] use of the
    object they are handed, an [AutomationState] or a [LockState]; and what
    the stop handler of the interface writes to the database next to
    clearing [running] ([stop_automation] nothing, [stop_lock_system] the
    user's lock flag). *)
Class RunState (S : Type) : Type := {
  rs_running : S -> bool;
  rs_set_running : bool -> S -> S;
  rs_logs : S -> list string;
  rs_set_logs : list string -> S -> S;
  rs_stop_db : string -> Db -> Db
}.

#[export] Instance AutomationState_RunState : RunState AutomationState.t := {
  rs_running := AutomationState.running;
  rs_set_running := AutomationState.set_running;
  rs_logs := AutomationState.logs;
  rs_set_logs := AutomationState.set_logs;
  rs_stop_db := fun _ d => d
}.

#[export] Instance LockState_RunState : RunState LockState.t := {
  rs_running := LockState.running;
  rs_set_running := LockState.set_running;
  rs_logs := LockState.logs;
  rs_set_logs := LockState.set_logs;
  rs_stop_db := fun user d => set_lock_enabled user false d
}.

(** What a thread can see and change: its history, the database, the logged
    in user of the session that owns the run state, and the run-state
    object. *)
Record World (S : Type) : Type := MkWorld {
  trace : list Event;
  db : Db;
  session_user : string;
  state : S
}.
Arguments MkWorld {S}.
Arguments trace {S}.
Arguments db {S}.
Arguments session_user {S}.
Arguments state {S}.

(** ** A state and exception monad for the thread bodies *)

Definition M (S A : Type) : Type := World S -> Res A * World S.

Definition ret {S A} (a : A) : M S A := fun w => (Ok a, w).

Definition bind {S A B} (m : M S A) (k : A -> M S B) : M S B :=
  fun w =>
    match m w with
    | (Ok a, w') => k a w'
    | (Raised e, w') => (Raised e, w')
    | (Diverged, w') => (Diverged, w')
    end.

Definition raise {S A} (e : string) : M S A := fun w => (Raised e, w).

Definition diverge {S A} : M S A := fun w => (Diverged, w).

(** [try: body  except Exception as e: handler(e)] *)
Definition try_except {S A} (body : M S A) (handler : string -> M S A) : M S A :=
  fun w =>
    match body w with
    | (Raised e, w') => handler e w'
    | r => r
    end.

(** [try: body  finally: cleanup] *)
Definition try_finally {S A} (body : M S A) (cleanup : M S unit) : M S A :=
  fun w =>
    match body w with
    | (Diverged, w') => (Diverged, w')
    | (r, w') =>
        match cleanup w' with
        | (Ok _, w'') => (r, w'')
        | (Raised e, w'') => (Raised e, w'')
        | (Diverged, w'') => (Diverged, w'')
        end
    end.

Declare Scope py_scope.
Delimit Scope py_scope with py.
Notation "x <- m ;; k" := (bind m (fun x => k))
  (at level 100, m at next level, right associativity) : py_scope.
Notation "m ;; k" := (bind m (fun _ => k))
  (at level 100, right associativity) : py_scope.
Local Open Scope py_scope.

Definition get_state {S} : M S S := fun w => (Ok (state w), w).

Definition modify_state {S} (f : S -> S) : M S unit :=
  fun w => (Ok tt, MkWorld (trace w) (db w) (session_user w) (f (state w))).

Definition modify_db {S} (f : Db -> Db) : M S unit :=
  fun w => (Ok tt, MkWorld (trace w) (f (db w)) (session_user w) (state w)).

Definition record {S} (ev : Event) (w : World S) : World S :=
  MkWorld (trace w ++ [ev]) (db w) (session_user w) (state w).

(** The ghost mark of a function entry. *)
Definition enter {S} (fn : string) : M S unit := fun w => (Ok tt, record (EEnter fn) w).

(** The handle [webdriver.Chrome(...)] returns; a thread owns at most one. *)
Inductive Driver : Type := ChromeDriver.

(** A double quote, and a text between double quotes. *)
Definition dq : string := String "034"%char EmptyString.
Definition quoted (s : string) : string := dq +:+ s +:+ dq.

(** [str(n)] for an integer. *)
Definition str_of_Z (n : Z) : string := NilZero.string_of_int (Z.to_int n).

(** [bool(v)], [str(v)] and [v == s] for what a script handed back. *)
Definition truthy (v : Value) : bool :=
  match v with
  | VNone => false
  | VBool b => b
  | VStr s => PyStr.truthy s
  end.

Definition py_str (v : Value) : string :=
  match v with
  | VNone => "None"
  | VBool true => "True"
  | VBool false => "False"
  | VStr s => s
  end.

Definition value_eq_str (v : Value) (s : string) : bool :=
  match v with
  | VStr t => String.eqb t s
  | _ => false
  end.

Definition opt_truthy (o : option string) : bool :=
  match o with
  | Some s => PyStr.truthy s
  | None => false
  end.

(** [create_user(username, password)]: the flag and the message it returns,
    and the database after it. A new account gets the default lock
    configuration, whose nicknames are the JSON text of the empty
    dictionary. *)
Definition create_user (username pw : string) (d : Db) : (bool * string) * Db :=
  match users d !! username with
  | Some _ => ((false, "Username already exists"), d)
  | None =>
      ((true, "Account created successfully"),
       {| users := <[username := {| password := pw; lock_enabled := false |}]>
                     (users d);
          lock_config :=
            <[username := {| row_chat_id := Some "";
                             row_locked_group_name := Some "";
                             row_locked_nicknames := Some ∅;
                             row_cookies := Some "" |}]> (lock_config d) |})
  end.

(** [verify_user(username, password)] *)
Definition verify_user (username pw : string) (d : Db) : option string :=
  match users d !! username with
  | Some row => if String.eqb (password row) pw then Some username else None
  | None => None
  end.

(** [update_lock_config(username, chat_id, locked_group_name, nicknames,
    cookies)]: INSERT OR REPLACE, whether the user has an account or not;
    [nicknames or {}] and [cookies or ""] are what is stored. *)
Definition update_lock_config (username : string)
    (chat_id locked_group_name : option string)
    (nicknames : option (gmap string string)) (cookies : option string)
    (d : Db) : Db :=
  {| users := users d;
     lock_config :=
       <[username :=
           {| row_chat_id := chat_id;
              row_locked_group_name := locked_group_name;
              row_locked_nicknames :=
                Some (match nicknames with Some m => m | None => ∅ end);
              row_cookies := Some (or_empty cookies) |}]>
         (lock_config d) |}.

(** The longest sleep, in milliseconds, whose nanoseconds fit 63 bits. *)
Definition max_sleep_ms : Z := 9223372036000.

(** The start of Chrome (lines 294-300): through a [Service] on the
    configured driver path when the session has a non-empty one, else from
    the driver found on the PATH. *)
Definition launch_event (env : Env) : Event :=
  let driver_path_env := env_chromedriver_path env in
  if opt_truthy driver_path_env then EChrome driver_path_env else EChrome None.

Section Thread.
Context {S : Type} `{RunState S}.
Variable env : Env.

(** A call of the WebDriver client: it is written to the history, and it
    raises or hands back the environment's answer. *)
Definition call {A} (ev : Event) (answer : list Event -> A) : M S A :=
  fun w =>
    match env_raises env (trace w) ev with
    | Some e => (Raised e, record ev w)
    | None => (Ok (answer (trace w)), record ev w)
    end.

Definition execute_script (js : Script) (args : list Arg) : M S Value :=
  call (EExecuteScript js args) (fun h => env_script env h js args).

(** [time.sleep(ms / 1000)]. A negative length raises [ValueError], and a
    length that does not fit the C time type in nanoseconds (more than
    9223372036 seconds) raises [OverflowError]. While the thread sleeps the
    interface may run its stop handler, which clears the running flag of the
    shared object. *)
Definition sleep (ms : Z) : M S unit :=
  fun w =>
    if ms <? 0 then (Raised "sleep length must be non-negative", w)
    else if max_sleep_ms <? ms
    then (Raised "timestamp too large to convert to C _PyTime_t", w)
    else if env_stop env (trace w)
    then (Ok tt, MkWorld (trace w ++ [ESleep ms])
                   (rs_stop_db (session_user w) (db w))
                   (session_user w)
                   (rs_set_running false (state w)))
    else (Ok tt, record (ESleep ms) w).

(** [log_message(msg, automation_state)] with the object given, as every
    call in the functions below gives it. *)
Definition log_message (msg : string) : M S unit :=
  fun w =>
    let timestamp := env_clock env (trace w) in
    let formatted_msg := "[" +:+ timestamp +:+ "] " +:+ msg in
    (Ok tt, MkWorld (trace w) (db w) (session_user w)
              (rs_set_logs (rs_logs (state w) ++ [formatted_msg]) (state w))).

(** [for x in l: body(x)] *)
Fixpoint for_each {A} (l : list A) (body : A -> M S unit) : M S unit :=
  match l with
  | [] => ret tt
  | x :: rest => body x ;; for_each rest body
  end.

(** [setup_browser(automation_state)] *)
Definition setup_browser : M S Driver :=
  log_message "Setting up Chrome browser..." ;;
  try_except
    (call (launch_event env) (fun _ => tt) ;;
     call (ESetWindowSize 1920 1080) (fun _ => tt) ;;
     log_message "Chrome browser setup completed successfully!" ;;
     ret ChromeDriver)
    (fun err =>
       log_message ("Browser setup failed: " +:+ err) ;;
       raise err).

(** The cookie block of [send_messages] (lines 338-353) and of
    [monitor_and_lock_group] (lines 483-498), the same text in both. *)
Definition add_cookies (driver : Driver) (cookies : option string) : M S unit :=
  try_except
    (match cookies with
     | Some raw =>
         if PyStr.truthy raw then
           let cookie_array := PyStr.split ";" raw in
           for_each cookie_array (fun cookie =>
             let cookie_trimmed := PyStr.strip cookie in
             if PyStr.truthy cookie_trimmed then
               let first_equal_index := PyStr.find "=" cookie_trimmed in
               if first_equal_index >? 0 then
                 let name :=
                   PyStr.strip (PyStr.slice_to cookie_trimmed first_equal_index) in
                 let value :=
                   PyStr.strip
                     (PyStr.slice_from cookie_trimmed (first_equal_index + 1)) in
                 try_except
                   (call (EAddCookie name value) (fun _ => tt))
                   (fun _ => ret tt)
               else ret tt
             else ret tt)
         else ret tt
     | None => ret tt
     end)
    (fun _ => ret tt).

(** *** Element locator *)

Definition message_input_selectors : list string :=
  [ "div[contenteditable=" +:+ quoted "true" +:+ "][role=" +:+ quoted "textbox" +:+ "]";
    "div[contenteditable=" +:+ quoted "true" +:+ "][data-lexical-editor="
      +:+ quoted "true" +:+ "]";
    "div[aria-label*=" +:+ quoted "message" +:+ " i][contenteditable="
      +:+ quoted "true" +:+ "]";
    "div[aria-label*=" +:+ quoted "Message" +:+ " i][contenteditable="
      +:+ quoted "true" +:+ "]";
    "div[contenteditable=" +:+ quoted "true" +:+ "][spellcheck="
      +:+ quoted "true" +:+ "]";
    "[role=" +:+ quoted "textbox" +:+ "][contenteditable=" +:+ quoted "true" +:+ "]";
    "textarea[placeholder*=" +:+ quoted "message" +:+ " i]";
    "div[aria-placeholder*=" +:+ quoted "message" +:+ " i]";
    "div[data-placeholder*=" +:+ quoted "message" +:+ " i]";
    "[contenteditable=" +:+ quoted "true" +:+ "]";
    "textarea";
    "input[type=" +:+ quoted "text" +:+ "]" ].

Definition keywords : list string :=
  ["message"; "write"; "type"; "send"; "chat"; "msg"; "reply"; "text"].

(** [v.lower()]: only a string has the method. *)
Definition py_lower (v : Value) : M S string :=
  match v with
  | VStr s => ret (PyStr.lower s)
  | VNone => raise "'NoneType' object has no attribute 'lower'"
  | VBool _ => raise "'bool' object has no attribute 'lower'"
  end.

(** The body of [for element in elements] (lines 243-262): [Some element]
    when the function returns that element, [None] when the loop goes on. *)
Definition try_element (process_id selector : string) (element : Element)
  : M S (option Element) :=
  try_except
    (displayed <- call (EIsDisplayed element) (fun h => env_displayed env h element) ;;
     wide <- (if displayed : bool then
                size <- call (ESize element) (fun h => env_size env h element) ;;
                ret (fst size >? 0)
              else ret false) ;;
     high <- (if wide : bool then
                size <- call (ESize element) (fun h => env_size env h element) ;;
                ret (snd size >? 0)
              else ret false) ;;
     if high : bool then
       call (EClick element) (fun _ => tt) ;;
       sleep 500 ;;
       is_editable <- execute_script IsEditable [ArgElement element] ;;
       if truthy is_editable then
         text <- execute_script ElementText [ArgElement element] ;;
         element_text <- py_lower text ;;
         if existsb (fun keyword => PyStr.contains keyword element_text) keywords
         then
           log_message (process_id +:+ ": Found message input with text: "
                        +:+ PyStr.slice_to element_text 50) ;;
           ret (Some element)
         else if String.eqb selector ("[contenteditable=" +:+ quoted "true" +:+ "]")
                 || String.eqb selector "textarea"
         then
           log_message (process_id +:+ ": Using fallback editable element") ;;
           ret (Some element)
         else ret None
       else ret None
     else ret None)
    (fun _ => ret None).

Fixpoint try_elements (process_id selector : string) (elements : list Element)
  : M S (option Element) :=
  match elements with
  | [] => ret None
  | element :: rest =>
      r <- try_element process_id selector element ;;
      match r with
      | Some found => ret (Some found)
      | None => try_elements process_id selector rest
      end
  end.

(** The body of [for idx, selector in enumerate(...)] (lines 240-264). *)
Definition try_selector (driver : Driver) (process_id selector : string)
  : M S (option Element) :=
  try_except
    (elements <- call (EFindElements selector) (fun h => env_elements env h selector) ;;
     try_elements process_id selector elements)
    (fun _ => ret None).

Fixpoint try_selectors (driver : Driver) (process_id : string)
    (selectors : list string) : M S (option Element) :=
  match selectors with
  | [] => ret None
  | selector :: rest =>
      r <- try_selector driver process_id selector ;;
      match r with
      | Some found => ret (Some found)
      | None => try_selectors driver process_id rest
      end
  end.

(** [find_message_input(driver, process_id, automation_state)]; [None] is
    Python's [None]. *)
Definition find_message_input (driver : Driver) (process_id : string)
  : M S (option Element) :=
  log_message (process_id +:+ ": Finding message input...") ;;
  sleep 4000 ;;
  try_except
    (execute_script ScrollToBottom [] ;;
     sleep 1000 ;;
     execute_script ScrollToTop [] ;;
     sleep 1000)
    (fun _ => ret tt) ;;
  try_except
    (page_title <- call ETitle (env_title env) ;;
     page_url <- call ECurrentUrl (env_url env) ;;
     log_message (process_id +:+ ": Page Title: " +:+ page_title) ;;
     log_message (process_id +:+ ": Page URL: " +:+ page_url))
    (fun e => log_message (process_id +:+ ": Could not get page info: " +:+ e)) ;;
  found <- try_selectors driver process_id message_input_selectors ;;
  match found with
  | Some element => ret (Some element)
  | None =>
      try_except
        (page_source <- call EPageSource (env_source env) ;;
         if PyStr.contains "contenteditable" (PyStr.lower page_source)
         then log_message (process_id +:+ ": Page contains contenteditable elements")
         else log_message (process_id
                           +:+ ": No contenteditable elements found in page"))
        (fun _ => ret tt) ;;
      ret None
  end.

(** The [finally] of both thread bodies: [driver.quit()] and its log line. *)
Definition quit_driver (driver : Driver) (closed : string) : M S unit :=
  try_except
    (call EQuit (fun _ => tt) ;; log_message closed)
    (fun _ => ret tt).

End Thread.

(** ** Message dispatcher *)

(** [set_automation_running(username, value)]: its body is [pass]. *)
Definition set_automation_running {S} (username : string) (value : bool) : M S unit :=
  ret tt.

Section Dispatcher.
Variable env : Env.

Local Abbreviation MA := (M AutomationState.t).

(** [get_next_message(messages_list, automation_state)] on the shared
    object of the thread. *)
Definition next_message (messages : list string) : MA string :=
  fun w =>
    match get_next_message messages (Some (state w)) with
    | (r, Some st') => (r, MkWorld (trace w) (db w) (session_user w) st')
    | (r, None) => (r, w)
    end.

(** The statements of one send attempt up to the last [time.sleep(1)]
    (lines 380-421). *)
Definition send_attempt (driver : Driver) (process_id : string)
    (message_input : Element) (message_to_send : string) : MA unit :=
  call env (EClick message_input) (fun _ => tt) ;;
  sleep env 500 ;;
  execute_script env SetMessage [ArgElement message_input; ArgStr message_to_send] ;;
  sleep env 1000 ;;
  sent <- execute_script env ClickSendButton [] ;;
  (if value_eq_str sent "button_not_found"
   then execute_script env PressEnter [ArgElement message_input] ;; ret tt
   else log_message env (process_id +:+ ": Send button clicked")) ;;
  sleep env 1000.

Definition error_sending (process_id e : string) : MA bool :=
  log_message env (process_id +:+ ": Error sending message: " +:+ e) ;;
  ret false.

(** The text that is sent (line 377): the base message behind the name
    prefix when the configuration has one. *)
Definition with_prefix (config : AutomationConfig) (base_message : string)
  : string :=
  if opt_truthy (cfg_name_prefix config)
  then PyStr.strip (PyStr.strip (or_empty (cfg_name_prefix config))
                    +:+ " " +:+ base_message)
  else base_message.

(** [while automation_state.running: ...] (lines 375-428), the local
    [messages_sent] carried as an argument. The [try] of the source spans
    the attempt, the counting and the last sleep; between the attempt and
    that sleep nothing can raise, so the one handler is written at both
    places, each with the value [messages_sent] has there. [fuel] bounds
    the number of iterations. *)
Fixpoint send_loop (fuel : nat) (config : AutomationConfig)
    (driver : Driver) (process_id : string) (message_input : Element)
    (delay : Z) (messages_list : list string) (messages_sent : Z) : MA Z :=
  match fuel with
  | O => diverge
  | S fuel' =>
      st <- get_state ;;
      if AutomationState.running st then
        base_message <- next_message messages_list ;;
        let message_to_send := with_prefix config base_message in
        attempted <- try_except
          (send_attempt driver process_id message_input message_to_send ;; ret true)
          (error_sending process_id) ;;
        if attempted : bool then
          let messages_sent := messages_sent + 1 in
          modify_state (AutomationState.set_message_count messages_sent) ;;
          log_message env (process_id +:+ ": Message " +:+ str_of_Z messages_sent
                           +:+ " sent: " +:+ PyStr.slice_to message_to_send 60) ;;
          slept <- try_except
            (sleep env (delay * 1000) ;; ret true)
            (error_sending process_id) ;;
          if slept : bool
          then send_loop fuel' config driver process_id message_input
                 delay messages_list messages_sent
          else ret messages_sent
        else ret messages_sent
      else ret messages_sent
  end.

(** What follows the loop, however it ended (lines 430-433). *)
Definition after_loop (user_id process_id : string) (messages_sent : Z) : MA Z :=
  log_message env (process_id +:+ ": Automation stopped. Total messages sent: "
                   +:+ str_of_Z messages_sent) ;;
  modify_state (AutomationState.set_running false) ;;
  set_automation_running user_id false ;;
  ret messages_sent.

(** [[msg.strip() for msg in text.split('\n') if msg.strip()]] *)
Definition message_lines (text : string) : list string :=
  List.filter PyStr.truthy (List.map PyStr.strip (PyStr.split "010" text)).

(** [send_messages(config, automation_state, user_id, process_id)]. The
    local [driver] is [None] until [setup_browser] has returned, which is
    why the [finally] is entered from there on only. *)
Definition send_messages (fuel : nat) (config : AutomationConfig)
    (user_id process_id : string) : MA Z :=
  log_message env (process_id +:+ ": Starting automation...") ;;
  started <- try_except
    (driver <- setup_browser env ;; ret (Some driver))
    (fun e =>
       log_message env (process_id +:+ ": Cannot start browser: " +:+ e) ;;
       modify_state (AutomationState.set_running false) ;;
       ret None) ;;
  match started with
  | None => ret 0
  | Some driver =>
      try_finally
        (try_except
           (call env (EGet "https://www.facebook.com/") (fun _ => tt) ;;
            sleep env 8000 ;;
            add_cookies env driver (cfg_cookies config) ;;
            (if opt_truthy (cfg_chat_id config) then
               let chat_id := PyStr.strip (or_empty (cfg_chat_id config)) in
               call env (EGet ("https://www.facebook.com/messages/t/" +:+ chat_id))
                 (fun _ => tt)
             else
               call env (EGet "https://www.facebook.com/messages") (fun _ => tt)) ;;
            sleep env 10000 ;;
            found <- find_message_input env driver process_id ;;
            match found with
            | None =>
                log_message env (process_id +:+ ": Message input not found!") ;;
                modify_state (AutomationState.set_running false) ;;
                set_automation_running user_id false ;;
                ret 0
            | Some message_input =>
                let delay := match cfg_delay config with Some d => d | None => 5 end in
                let messages_list :=
                  message_lines (or_empty (cfg_messages config)) in
                let messages_list :=
                  match messages_list with [] => ["Hello!"] | _ => messages_list end in
                messages_sent <-
                  send_loop fuel config driver process_id message_input
                    delay messages_list 0 ;;
                after_loop user_id process_id messages_sent
            end)
           (fun e =>
              log_message env (process_id +:+ ": Fatal error: " +:+ e) ;;
              modify_state (AutomationState.set_running false) ;;
              set_automation_running user_id false ;;
              ret 0))
        (quit_driver env driver (process_id +:+ ": Browser closed"))
  end.

End Dispatcher.

(** ** Group watchdog and reverter *)

Section Watchdog.
Variable env : Env.

Local Abbreviation ML := (M LockState.t).

(** [revert_group_name(driver, locked_name, lock_state)] *)
Definition revert_group_name (driver : Driver) (locked_name : string) : ML unit :=
  enter "revert_group_name" ;;
  try_except
    (log_message env ("LOCK: Reverting group name to " +:+ quoted locked_name
                      +:+ "...") ;;
     info_button <- execute_script env ClickInfoButton [] ;;
     sleep env 2000 ;;
     if truthy info_button then
       edit_button <- execute_script env ClickEditButton [] ;;
       sleep env 1000 ;;
       execute_script env SetNameInput [ArgStr locked_name] ;;
       sleep env 1000 ;;
       execute_script env ClickSaveButton [] ;;
       sleep env 1000 ;;
       execute_script env ClickCloseButton [] ;;
       log_message env ("LOCK: Group name reverted to " +:+ quoted locked_name +:+ "!")
     else
       log_message env "LOCK: Could not find info button to revert")
    (fun e => log_message env ("LOCK: Error reverting group name: " +:+ e)).

(** One poll tick: the body of [while lock_state.running] (lines 512-532)
    after [check_count += 1]. *)
Definition lock_tick (driver : Driver) (lock_config : LockConfig)
    (check_count : Z) : ML unit :=
  log_message env ("LOCK: Check #" +:+ str_of_Z check_count
                   +:+ " - Monitoring group...") ;;
  try_except
    (current_group_name <- execute_script env ReadGroupName [] ;;
     if truthy current_group_name && opt_truthy (locked_group_name lock_config)
     then
       let locked := or_empty (locked_group_name lock_config) in
       if negb (value_eq_str current_group_name locked) then
         log_message env ("LOCK: Group name changed! Current: "
                          +:+ quoted (py_str current_group_name)
                          +:+ " → Reverting to: " +:+ quoted locked) ;;
         revert_group_name driver locked
       else
         log_message env ("LOCK: Group name locked: "
                          +:+ quoted (py_str current_group_name))
     else ret tt)
    (fun e => log_message env ("LOCK: Error monitoring group name: " +:+ e)) ;;
  sleep env 5000.

Fixpoint lock_loop (fuel : nat) (driver : Driver) (lock_config : LockConfig)
    (check_count : Z) : ML unit :=
  match fuel with
  | O => diverge
  | S fuel' =>
      st <- get_state ;;
      if LockState.running st then
        let check_count := check_count + 1 in
        lock_tick driver lock_config check_count ;;
        lock_loop fuel' driver lock_config check_count
      else ret tt
  end.

Definition lock_off (user_id : string) : ML unit :=
  modify_state (LockState.set_running false) ;;
  modify_db (set_lock_enabled user_id false).

(** [monitor_and_lock_group(lock_config, lock_state, user_id)] *)
Definition monitor_and_lock_group (fuel : nat) (lock_config : LockConfig)
    (user_id : string) : ML unit :=
  log_message env "LOCK: Starting Group Name & Nickname Lock System..." ;;
  started <- try_except
    (driver <- setup_browser env ;; ret (Some driver))
    (fun e =>
       log_message env ("LOCK: Browser error: " +:+ e) ;;
       lock_off user_id ;;
       ret None) ;;
  match started with
  | None => ret tt
  | Some driver =>
      try_finally
        (try_except
           (call env (EGet "https://www.facebook.com/") (fun _ => tt) ;;
            sleep env 8000 ;;
            add_cookies env driver (cookies lock_config) ;;
            if negb (opt_truthy (chat_id lock_config)) then
              log_message env "LOCK: Group ID required!" ;;
              lock_off user_id
            else
              let chat_id := PyStr.strip (or_empty (chat_id lock_config)) in
              call env (EGet ("https://www.facebook.com/messages/t/" +:+ chat_id))
                (fun _ => tt) ;;
              sleep env 10000 ;;
              lock_loop fuel driver lock_config 0 ;;
              log_message env "LOCK: Lock system stopped!" ;;
              lock_off user_id)
           (fun e =>
              log_message env ("LOCK: Fatal error: " +:+ e) ;;
              lock_off user_id))
        (quit_driver env driver "LOCK: Browser closed")
  end.

End Watchdog.

(** ** Orchestration: start and stop *)

(** A started thread: its target and arguments. The run-state object it was
    handed is the one of the session, which is created once and never
    replaced. *)
Inductive Target : Type :=
| SendMessages (user_config : AutomationConfig) (user_id : string)
| MonitorAndLockGroup (lock_conf : LockConfig) (user_id : string).

Record Thread : Type := {
  target : Target;
  finished : bool
}.

(** [st.session_state]: the objects the functions below read from it.
    [lock_state = None] is ['lock_state' not in st.session_state]. *)
Record SessionState : Type := {
  automation_state : AutomationState.t;
  lock_state : option LockState.t
}.

(** One browser session of the interface with the database and the threads
    started so far, in start order. *)
Record App : Type := {
  session_state : SessionState;
  database : Db;
  threads : list Thread
}.

Definition spawn (t : Target) (a : App) : App :=
  {| session_state := session_state a;
     database := database a;
     threads := threads a ++ [{| target := t; finished := false |}] |}.

Definition with_automation_state (s : AutomationState.t) (a : App) : App :=
  {| session_state :=
       {| automation_state := s; lock_state := lock_state (session_state a) |};
     database := database a;
     threads := threads a |}.

Definition with_lock_state (s : LockState.t) (a : App) : App :=
  {| session_state :=
       {| automation_state := automation_state (session_state a);
          lock_state := Some s |};
     database := database a;
     threads := threads a |}.

Definition with_database (d : Db) (a : App) : App :=
  {| session_state := session_state a; database := d; threads := threads a |}.

(** [start_automation(user_config, user_id)] *)
Definition start_automation (user_config : AutomationConfig) (user_id : string)
    (a : App) : App :=
  let automation_state := automation_state (session_state a) in
  if AutomationState.running automation_state then a
  else
    let automation_state := AutomationState.set_running true automation_state in
    let automation_state := AutomationState.set_message_count 0 automation_state in
    let automation_state := AutomationState.set_logs [] automation_state in
    spawn (SendMessages user_config user_id)
      (with_automation_state automation_state a).

(** [stop_automation(user_id)] *)
Definition stop_automation (user_id : string) (a : App) : App :=
  with_automation_state
    (AutomationState.set_running false (automation_state (session_state a))) a.

(** [start_lock_system(user_id)] *)
Definition start_lock_system (user_id : string) (a : App) : App :=
  let a :=
    match lock_state (session_state a) with
    | None => with_lock_state LockState.init a
    | Some _ => a
    end in
  match lock_state (session_state a) with
  | None => a
  | Some lock_state =>
      if LockState.running lock_state then a
      else
        let lock_state := LockState.set_running true lock_state in
        let lock_state := LockState.set_logs [] lock_state in
        let a := with_lock_state lock_state a in
        let a := with_database (set_lock_enabled user_id true (database a)) a in
        let lock_conf := get_lock_config user_id (database a) in
        spawn (MonitorAndLockGroup lock_conf user_id) a
  end.

(** [stop_lock_system(user_id)] *)
Definition stop_lock_system (user_id : string) (a : App) : App :=
  let a :=
    match lock_state (session_state a) with
    | Some lock_state => with_lock_state (LockState.set_running false lock_state) a
    | None => a
    end in
  with_database (set_lock_enabled user_id false (database a)) a.

(** A fresh session: the defaults of lines 165-186, nothing started. *)
Definition fresh_app (d : Db) : App :=
  {| session_state :=
       {| automation_state := AutomationState.init; lock_state := None |};
     database := d;
     threads := [] |}.

Definition is_done {A} (r : Res A) : bool :=
  match r with
  | Diverged => false
  | _ => true
  end.

(** The scheduler lets thread [i] run on the shared objects, for at most
    [fuel] iterations of its loop; the thread is finished when its function
    has returned. *)
Definition run_thread (env : Env) (fuel : nat) (i : nat) (a : App) : App :=
  match threads a !! i with
  | Some {| target := SendMessages user_config user_id; finished := false |} =>
      let w := MkWorld [] (database a) user_id (automation_state (session_state a)) in
      let '(r, w') := send_messages env fuel user_config user_id "AUTO-1" w in
      {| session_state :=
           {| automation_state := state w';
              lock_state := lock_state (session_state a) |};
         database := db w';
         threads :=
           <[i := {| target := SendMessages user_config user_id;
                     finished := is_done r |}]> (threads a) |}
  | Some {| target := MonitorAndLockGroup lock_conf user_id; finished := false |} =>
      match lock_state (session_state a) with
      | Some ls =>
          let w := MkWorld [] (database a) user_id ls in
          let '(r, w') := monitor_and_lock_group env fuel lock_conf user_id w in
          {| session_state :=
               {| automation_state := automation_state (session_state a);
                  lock_state := Some (state w') |};
             database := db w';
             threads :=
               <[i := {| target := MonitorAndLockGroup lock_conf user_id;
                         finished := is_done r |}]> (threads a) |}
      | None => a
      end
  | _ => a
  end.

Definition is_dispatcher (t : Thread) : bool :=
  match target t with
  | SendMessages _ _ => true
  | MonitorAndLockGroup _ _ => false
  end.

Definition is_watchdog (t : Thread) : bool :=
  match target t with
  | SendMessages _ _ => false
  | MonitorAndLockGroup _ _ => true
  end.

(** The threads of a kind that were started and have not returned. *)
Definition active (kind : Thread -> bool) (a : App) : nat :=
  length (List.filter (fun t => kind t && negb (finished t)) (threads a)).

(** What happens to a session: a click that calls one of the four functions,
    or the scheduler running a thread. *)
Inductive Step : Type :=
| StartAutomation (user_config : AutomationConfig) (user_id : string)
| StopAutomation (user_id : string)
| StartLockSystem (user_id : string)
| StopLockSystem (user_id : string)
| RunThread (env : Env) (fuel : nat) (i : nat).

Definition step (s : Step) (a : App) : App :=
  match s with
  | StartAutomation user_config user_id => start_automation user_config user_id a
  | StopAutomation user_id => stop_automation user_id a
  | StartLockSystem user_id => start_lock_system user_id a
  | StopLockSystem user_id => stop_lock_system user_id a
  | RunThread env fuel i => run_thread env fuel i a
  end.

Definition steps (l : list Step) (a : App) : App :=
  fold_left (fun a s => step s a) l a.

(** ** Reading a history *)

(** The selectors handed to [find_elements], the scripts executed and the
    cookies handed to [add_cookie], each in call order; and how often a
    function was entered. *)
Definition finds (h : list Event) : list string :=
  flat_map (fun ev => match ev with EFindElements s => [s] | _ => [] end) h.

Definition scripts (h : list Event) : list Script :=
  flat_map (fun ev => match ev with EExecuteScript js _ => [js] | _ => [] end) h.

Definition cookies_tried (h : list Event) : list (string * string) :=
  flat_map (fun ev => match ev with EAddCookie n v => [(n, v)] | _ => [] end) h.

Definition entries (fn : string) (h : list Event) : nat :=
  length (List.filter
            (fun ev => match ev with EEnter f => String.eqb f fn | _ => false end) h).

(** The world [w] after the events [evs], nothing else changed. *)
Definition grown {S} (w : World S) (evs : list Event) : World S :=
  MkWorld (trace w ++ evs) (db w) (session_user w) (state w).

(** The calls of [add_cookie] for a list of pairs. *)
Definition add_events (pairs : list (string * string)) : list Event :=
  List.map (fun nv => EAddCookie (fst nv) (snd nv)) pairs.

(** Whether the character [ch] occurs in [s]. *)
Fixpoint occurs (ch : ascii) (s : string) : bool :=
  match s with
  | EmptyString => false
  | String c s' => Ascii.eqb c ch || occurs ch s'
  end.

(** A log line as [log_message] formats it after the history [h]. *)
Definition entry (env : Env) (h : list Event) (msg : string) : string :=
  "[" +:+ env_clock env h +:+ "] " +:+ msg.

(** The world after [log_message(msg, state)]. *)
Definition logged {S} `{RunState S} (env : Env) (msg : string) (w : World S)
  : World S :=
  MkWorld (trace w) (db w) (session_user w)
    (rs_set_logs (rs_logs (state w) ++ [entry env (trace w) msg]) (state w)).

(** The world after a sleep of [ms] milliseconds. *)
Definition slept {S} `{RunState S} (env : Env) (ms : Z) (w : World S) : World S :=
  MkWorld (trace w ++ [ESleep ms])
    (if env_stop env (trace w) then rs_stop_db (session_user w) (db w) else db w)
    (session_user w)
    (if env_stop env (trace w) then rs_set_running false (state w) else state w).

(** The outcome and the final world of a run satisfy [Q]. *)
Definition wp {S A} (m : M S A) (w : World S) (Q : Res A -> World S -> Prop) : Prop :=
  Q (fst (m w)) (snd (m w)).

(** ** What a run may touch *)

(** How the two run-state types answer to their setters. *)
Class RunStateLaws (S : Type) `{RunState S} : Prop := {
  rs_logs_set_logs : forall l s, rs_logs (rs_set_logs l s) = l;
  rs_logs_set_running : forall b s, rs_logs (rs_set_running b s) = rs_logs s;
  rs_running_set_logs : forall l s, rs_running (rs_set_logs l s) = rs_running s;
  rs_running_set_running : forall b s, rs_running (rs_set_running b s) = b
}.

(** [w'] comes after [w]: the history grew by events that are all
    [allowed], the log grew at its end, and a cleared running flag stayed
    cleared. *)
Definition extends {S} `{RunState S} (allowed : Event -> Prop) (w w' : World S)
  : Prop :=
  (exists evs, trace w' = trace w ++ evs /\ Forall allowed evs)
  /\ (exists more, rs_logs (state w') = rs_logs (state w) ++ more)
  /\ (rs_running (state w) = false -> rs_running (state w') = false).

(** Whatever the outcome, a run of [m] ends in a world that comes after the
    one it started in. *)
Definition footprint {S A} `{RunState S} (allowed : Event -> Prop) (m : M S A)
  : Prop :=
  forall w, extends allowed w (snd (m w)).

(** A run of [m] never ends in an exception. *)
Definition unfailing {S A} (m : M S A) : Prop :=
  forall w e, fst (m w) <> Raised e.

(** A run of [m] never exhausts fuel: [m] holds no loop that could go on. *)
Definition halting {S A} (m : M S A) : Prop :=
  forall w, fst (m w) <> Diverged.

(** The calls each part of a thread makes. *)
Definition setup_event (ev : Event) : bool :=
  match ev with
  | EChrome _ | ESetWindowSize _ _ => true
  | _ => false
  end.

Definition cookie_event (ev : Event) : bool :=
  match ev with
  | EAddCookie _ _ => true
  | _ => false
  end.

Definition locator_event (ev : Event) : bool :=
  match ev with
  | ESleep _ | ETitle | ECurrentUrl | EPageSource
  | EFindElements _ | EIsDisplayed _ | ESize _ | EClick _ => true
  | EExecuteScript (ScrollToBottom | ScrollToTop | IsEditable | ElementText) _ =>
      true
  | _ => false
  end.

Definition send_event (ev : Event) : bool :=
  match ev with
  | ESleep _ | EClick _ => true
  | EExecuteScript (SetMessage | ClickSendButton | PressEnter) _ => true
  | _ => false
  end.

Definition reverter_event (ev : Event) : bool :=
  match ev with
  | ESleep _ | EEnter _ => true
  | EExecuteScript (ClickInfoButton | ClickEditButton | SetNameInput
                    | ClickSaveButton | ClickCloseButton) _ => true
  | _ => false
  end.

Definition tick_event (ev : Event) : bool :=
  match ev with
  | EExecuteScript ReadGroupName _ => true
  | _ => reverter_event ev
  end.

Definition is_quit (ev : Event) : bool :=
  match ev with
  | EQuit => true
  | _ => false
  end.

Definition is_get (ev : Event) : bool :=
  match ev with
  | EGet _ => true
  | _ => false
  end.

(** ** The cookie wire format, as the specification words it *)

(** [s] cut at the first [ch]: what stands before it and what stands after
    it; [None] when [s] has no [ch]. *)
Fixpoint cut_at_first (ch : ascii) (s : string) : option (string * string) :=
  match s with
  | EmptyString => None
  | String c s' =>
      if Ascii.eqb c ch then Some (EmptyString, s')
      else match cut_at_first ch s' with
           | Some (before, after) => Some (String c before, after)
           | None => None
           end
  end.

(** The pair a segment between two [;] stands for, if any. *)
Definition segment_pairs (segment : string) : list (string * string) :=
  match cut_at_first "=" (PyStr.strip segment) with
  | Some (name, value) =>
      if PyStr.truthy name then [(PyStr.strip name, PyStr.strip value)] else []
  | None => []
  end.

Definition cookie_pairs (raw : string) : list (string * string) :=
  flat_map segment_pairs (PyStr.split ";" raw).

(** The pairs of a [cookies] entry that may be missing. *)
Definition pairs_of (cookies : option string) : list (string * string) :=
  match cookies with
  | Some raw => cookie_pairs raw
  | None => []
  end.

(** ** A page that holds still *)

(** What the locator can see of one element of the page. *)
Record PageElement : Type := {
  el_displayed : bool;
  el_width : Z;
  el_height : Z;
  el_content_editable : bool;
  el_tag_name : string;
  el_placeholder : option string;
  el_aria_label : option string;
  el_aria_placeholder : option string
}.

(** A page: its elements in document order, the handle of an element being
    its position, and which of them a CSS selector matches. *)
Record Page : Type := {
  page_elements : list PageElement;
  page_matches : string -> Element -> bool
}.

Definition no_element : PageElement :=
  {| el_displayed := false; el_width := 0; el_height := 0;
     el_content_editable := false; el_tag_name := "";
     el_placeholder := None; el_aria_label := None;
     el_aria_placeholder := None |}.

Definition element_at (p : Page) (e : Element) : PageElement :=
  nth e (page_elements p) no_element.

(** [find_elements(By.CSS_SELECTOR, selector)]: the matches in document
    order. *)
Definition matching (p : Page) (selector : string) : list Element :=
  List.filter (page_matches p selector) (seq 0 (length (page_elements p))).

(** JavaScript's [a || b] on attribute texts. *)
Definition js_or (a b : option string) : option string :=
  if opt_truthy a then a else b.

(** The script [ElementText] (line 253):
    [placeholder || aria-label || aria-placeholder || '']. *)
Definition label_text (el : PageElement) : string :=
  or_empty (js_or (el_placeholder el)
              (js_or (el_aria_label el) (js_or (el_aria_placeholder el) (Some "")))).

(** The script [IsEditable] (lines 247-251). *)
Definition editable (el : PageElement) : bool :=
  el_content_editable el
  || String.eqb (el_tag_name el) "TEXTAREA"
  || String.eqb (el_tag_name el) "INPUT".

Definition visible (el : PageElement) : bool :=
  el_displayed el && (el_width el >? 0) && (el_height el >? 0).

Definition has_keyword (el : PageElement) : bool :=
  existsb (fun keyword => PyStr.contains keyword (PyStr.lower (label_text el)))
    ["message"; "write"; "type"; "send"; "chat"; "msg"; "reply"; "text"].

(** The two fallback patterns: any content-editable element, any text
    area. *)
Definition is_fallback (selector : string) : bool :=
  String.eqb selector ("[contenteditable=" +:+ quoted "true" +:+ "]")
  || String.eqb selector "textarea".

Definition acceptable (p : Page) (selector : string) (e : Element) : bool :=
  let el := element_at p e in
  visible el && editable el && (has_keyword el || is_fallback selector).

(** The first acceptable element over the patterns in the order given, each
    pattern's matches in document order; and the patterns looked at until
    then. *)
Fixpoint locate (p : Page) (selectors : list string) : option Element :=
  match selectors with
  | [] => None
  | selector :: rest =>
      match List.find (acceptable p selector) (matching p selector) with
      | Some e => Some e
      | None => locate p rest
      end
  end.

Fixpoint patterns_tried (p : Page) (selectors : list string) : list string :=
  match selectors with
  | [] => []
  | selector :: rest =>
      selector ::
      match List.find (acceptable p selector) (matching p selector) with
      | Some _ => []
      | None => patterns_tried p rest
      end
  end.

(** Every (pattern, element) pair the locator can come to look at, in the
    order it would: pattern by pattern, each pattern's matches in document
    order. *)
Definition candidates (p : Page) (selectors : list string)
  : list (string * Element) :=
  flat_map (fun selector => List.map (pair selector) (matching p selector))
    selectors.

(** The environment shows the page [p] and nothing else: what the locator
    asks of an element is answered from [p] whatever happened before, and
    none of these calls raises. *)
Record renders (env : Env) (p : Page) : Prop := {
  renders_find : forall h selector,
    env_raises env h (EFindElements selector) = None
    /\ env_elements env h selector = matching p selector;
  renders_displayed : forall h e,
    env_raises env h (EIsDisplayed e) = None
    /\ env_displayed env h e = el_displayed (element_at p e);
  renders_size : forall h e,
    env_raises env h (ESize e) = None
    /\ env_size env h e = (el_width (element_at p e), el_height (element_at p e));
  renders_click : forall h e, env_raises env h (EClick e) = None;
  renders_editable : forall h e,
    env_raises env h (EExecuteScript IsEditable [ArgElement e]) = None
    /\ env_script env h IsEditable [ArgElement e] = VBool (editable (element_at p e));
  renders_text : forall h e,
    env_raises env h (EExecuteScript ElementText [ArgElement e]) = None
    /\ env_script env h ElementText [ArgElement e] = VStr (label_text (element_at p e))
}.

(** An environment in which nothing raises, every script hands back [v],
    the page is [p], the clock stands still and nobody presses stop. *)
Definition quiet_env (p : Page) (v : Value) : Env :=
  {| env_raises := fun _ _ => None;
     env_script := fun _ js args =>
       match js, args with
       | IsEditable, [ArgElement e] => VBool (editable (element_at p e))
       | ElementText, [ArgElement e] => VStr (label_text (element_at p e))
       | _, _ => v
       end;
     env_elements := fun _ selector => matching p selector;
     env_displayed := fun _ e => el_displayed (element_at p e);
     env_size := fun _ e => (el_width (element_at p e), el_height (element_at p e));
     env_title := fun _ => "Messenger";
     env_url := fun _ => "https://www.facebook.com/messages";
     env_source := fun _ => "";
     env_clock := fun _ => "12:00:00";
     env_stop := fun _ => false;
     env_chromedriver_path := None |}.

Definition empty_page : Page :=
  {| page_elements := []; page_matches := fun _ _ => false |}.

Definition empty_db : Db := {| users := ∅; lock_config := ∅ |}.


(** ** Sample data *)

(** A page with one message box, and an environment on it in which every
    send succeeds and nobody presses stop. *)
Definition chat_page : Page :=
  {| page_elements :=
       [ {| el_displayed := true; el_width := 600; el_height := 40;
            el_content_editable := true; el_tag_name := "DIV";
            el_placeholder := None; el_aria_label := Some "Message";
            el_aria_placeholder := None |} ];
     page_matches := fun _ _ => true |}.

Definition chat_env : Env := quiet_env chat_page (VStr "button_clicked").

Definition demo_config : AutomationConfig :=
  {| cfg_cookies := Some "c_user=1;xs=2=3"; cfg_chat_id := Some "42";
     cfg_delay := Some 1; cfg_messages := Some "hi"; cfg_name_prefix := None |}.

Definition demo_db : Db :=
  {| users := {[ "ann" := {| password := "pw"; lock_enabled := false |} ]};
     lock_config :=
       {[ "ann" := {| row_chat_id := Some "42";
                      row_locked_group_name := Some "Y";
                      row_locked_nicknames := None;
                      row_cookies := None |} ]} |}.

Definition ann_start_stop_start : list Step :=
  [StartAutomation demo_config "ann"; StopAutomation "ann";
   StartAutomation demo_config "ann"].

Definition ann_lock_unlock_lock : list Step :=
  [StartLockSystem "ann"; StopLockSystem "ann"; StartLockSystem "ann"].

(** What a run that sent two messages and was stopped leaves behind. *)
Definition after_two_messages : AutomationState.t :=
  AutomationState.Make false 2
    ["[12:00:00] AUTO-1: Message 2 sent: hi";
     "[12:00:05] AUTO-1: Automation stopped. Total messages sent: 2"] 2.


(** An environment whose browser refuses the cookie [a]. *)
Definition refuses_a : Env :=
  {| env_raises := fun _ ev =>
       match ev with
       | EAddCookie "a" _ => Some "invalid cookie domain"
       | _ => None
       end;
     env_script := fun _ _ _ => VNone;
     env_elements := fun _ _ => [];
     env_displayed := fun _ _ => false;
     env_size := fun _ _ => (0, 0);
     env_title := fun _ => "";
     env_url := fun _ => "";
     env_source := fun _ => "";
     env_clock := fun _ => "12:00:00";
     env_stop := fun _ => false;
     env_chromedriver_path := None |}.


(** A watchdog configuration locked to the name [Y], and one without a
    group id. *)
Definition locked_to_Y : LockConfig :=
  {| chat_id := Some "42"; locked_group_name := Some "Y";
     locked_nicknames := ∅; cookies := None |}.

Definition no_group_id : LockConfig :=
  {| chat_id := Some ""; locked_group_name := Some "Y";
     locked_nicknames := ∅; cookies := Some "c_user=1" |}.

(** The chat page again, with a browser that loses the message box once it
    is asked to fill it; and with a user who presses stop during the second
    pause between two messages. *)
Definition stale_env : Env :=
  {| env_raises := fun _ ev =>
       match ev with
       | EExecuteScript SetMessage _ => Some "stale element reference"
       | _ => None
       end;
     env_script := env_script chat_env;
     env_elements := env_elements chat_env;
     env_displayed := env_displayed chat_env;
     env_size := env_size chat_env;
     env_title := env_title chat_env;
     env_url := env_url chat_env;
     env_source := env_source chat_env;
     env_clock := env_clock chat_env;
     env_stop := env_stop chat_env;
     env_chromedriver_path := None |}.

Definition stopping_env : Env :=
  {| env_raises := env_raises chat_env;
     env_script := env_script chat_env;
     env_elements := env_elements chat_env;
     env_displayed := env_displayed chat_env;
     env_size := env_size chat_env;
     env_title := env_title chat_env;
     env_url := env_url chat_env;
     env_source := env_source chat_env;
     env_clock := env_clock chat_env;
     env_stop := fun h =>
       (2 <=? length (List.filter
                        (fun ev => match ev with
                                   | EExecuteScript ClickSendButton _ => true
                                   | _ => false
                                   end) h))%nat;
     env_chromedriver_path := None |}.

Definition running_world : World AutomationState.t :=
  MkWorld [] empty_db "ann" (AutomationState.Make true 0 [] 0).

(** A browser that cannot be started; and the world a watchdog thread finds
    when [start_lock_system] has just set the running flag and the user's
    lock flag. *)
Definition no_browser_env : Env :=
  {| env_raises := fun _ ev =>
       match ev with
       | EChrome _ => Some "chromedriver not found"
       | _ => None
       end;
     env_script := fun _ _ _ => VNone;
     env_elements := fun _ _ => [];
     env_displayed := fun _ _ => false;
     env_size := fun _ _ => (0, 0);
     env_title := fun _ => "";
     env_url := fun _ => "";
     env_source := fun _ => "";
     env_clock := fun _ => "12:00:00";
     env_stop := fun _ => false;
     env_chromedriver_path := None |}.

Definition locked_world : World LockState.t :=
  MkWorld [] (set_lock_enabled "ann" true demo_db) "ann" (LockState.Make true []).

(** * Properties *)

(** ** Python strings and lists *)

Lemma py_getitem_in_range {A} (l : list A) (k : Z) (d : A) :
  0 <= k < Z.of_nat (length l) ->
  py_getitem l k = Ok (nth (Z.to_nat k) l d).
Proof.
  intros Hk. unfold py_getitem.
  destruct (k <? 0) eqn:Hneg; [lia|].
  destruct (k <? 0) eqn:Hneg'; [lia|].
  destruct (Z.of_nat (length l) <=? k) eqn:Hle; [lia|]. simpl.
  destruct (nth_error l (Z.to_nat k)) as [x|] eqn:Hx.
  - f_equal. symmetry. now apply nth_error_nth.
  - apply nth_error_None in Hx. lia.
Qed.

Lemma get_next_message_nonempty (messages : list string) (st : AutomationState.t) :
  messages <> [] ->
  let i := AutomationState.message_rotation_index st in
  get_next_message messages (Some st) =
    (Ok (nth (Z.to_nat (i mod Z.of_nat (length messages))) messages "Hello!"),
     Some (AutomationState.set_message_rotation_index (i + 1) st)).
Proof.
  intros Hne i. unfold get_next_message.
  destruct messages as [|m rest]; [congruence|].
  fold i. set (l := m :: rest) in *.
  assert (Hlen : 0 < Z.of_nat (length l)) by (subst l; simpl; lia).
  unfold py_mod. destruct (Z.of_nat (length l) =? 0) eqn:H0; [lia|].
  rewrite (py_getitem_in_range l _ "Hello!"); [reflexivity|].
  apply Z.mod_pos_bound; lia.
Qed.

(** C3. Rotation: from rotation index 0 four successive calls on
    [[m0, m1, m2]] give [m0, m1, m2, m0]; on the empty list every call gives
    ["Hello!"] and leaves the object as it is; and in general the message
    handed back is the one at position [index mod max(1, len(messages))]
    (on the empty list no such position exists and the default stands in),
    the index of a non-empty list moving on by one. *)
Theorem get_next_message_rotation :
  (forall m0 m1 m2 running count logs,
     successive_messages 4 [m0; m1; m2]
       (Some (AutomationState.Make running count logs 0))
     = [Ok m0; Ok m1; Ok m2; Ok m0])
  /\ (forall n st, successive_messages n [] st = repeat (Ok "Hello!") n)
  /\ (forall st, get_next_message [] st = (Ok "Hello!", st))
  /\ (forall messages st,
        fst (get_next_message messages (Some st))
        = Ok (nth (Z.to_nat (AutomationState.message_rotation_index st
                             mod Z.max 1 (Z.of_nat (length messages))))
                messages "Hello!"))
  /\ (forall messages st,
        messages <> [] ->
        snd (get_next_message messages (Some st))
        = Some (AutomationState.set_message_rotation_index
                  (AutomationState.message_rotation_index st + 1) st)).
Proof.
  split; [|split; [|split; [|split]]].
  - intros. reflexivity.
  - intros n. induction n as [|n IH]; intros st; simpl; [reflexivity|].
    now rewrite IH.
  - reflexivity.
  - intros messages st. destruct messages as [|m rest].
    + simpl. now destruct (Z.to_nat _).
    + rewrite get_next_message_nonempty by discriminate.
      cbv zeta. rewrite Z.max_r by (simpl length; lia). reflexivity.
  - intros messages st Hne. now rewrite get_next_message_nonempty.
Qed.

Lemma get_next_message_rotation_witness :
  snd (get_next_message ["a"; "b"] (Some AutomationState.init))
  = Some (AutomationState.set_message_rotation_index 1 AutomationState.init).
Proof.
  apply (proj2 (proj2 (proj2 (proj2 get_next_message_rotation))) ["a"; "b"]).
  discriminate.
Defined.

(** ** Start and stop *)

(** C5, as stated, fails. Start, stop and start again, clicked before the
    first loop has looked at its flag, leave two dispatchers alive on the
    one run state (the same with two watchdogs); and when the scheduler then
    lets each run, each finds the flag set and keeps looping. *)
Lemma two_loops_after_stop_and_start :
  active is_dispatcher (steps ann_start_stop_start (fresh_app demo_db)) = 2%nat
  /\ active is_dispatcher
       (steps (ann_start_stop_start
               ++ [RunThread chat_env 3 0; RunThread chat_env 3 1])
          (fresh_app demo_db)) = 2%nat
  /\ active is_watchdog (steps ann_lock_unlock_lock (fresh_app demo_db)) = 2%nat
  /\ active is_watchdog
       (steps (ann_lock_unlock_lock
               ++ [RunThread chat_env 3 0; RunThread chat_env 3 1])
          (fresh_app demo_db)) = 2%nat.
Proof. repeat split; vm_compute; reflexivity. Qed.

(** C5, amended. While the running flag is set, [start_automation] and
    [start_lock_system] return at once: run state, database and the list of
    started threads are what they were, so no loop is started while the flag
    is set. *)
Theorem start_is_noop_while_running (user_config : AutomationConfig)
    (user_id : string) (a : App) :
  (AutomationState.running (automation_state (session_state a)) = true ->
   start_automation user_config user_id a = a)
  /\ (forall ls,
        lock_state (session_state a) = Some ls ->
        LockState.running ls = true ->
        start_lock_system user_id a = a).
Proof.
  split.
  - intros Hrun. unfold start_automation. now rewrite Hrun.
  - intros ls Hls Hrun. unfold start_lock_system. rewrite Hls. cbn zeta.
    rewrite Hls. now rewrite Hrun.
Qed.

Lemma start_is_noop_while_running_witness :
  let a := start_lock_system "ann"
             (start_automation demo_config "ann" (fresh_app demo_db)) in
  start_automation demo_config "ann" a = a
  /\ start_lock_system "ann" a = a.
Proof.
  cbv zeta. split.
  - apply (proj1 (start_is_noop_while_running demo_config "ann" _)).
    vm_compute. reflexivity.
  - apply (proj2 (start_is_noop_while_running demo_config "ann" _)
             (LockState.Make true [])).
    + vm_compute. reflexivity.
    + reflexivity.
Defined.

(** C6, the part the code keeps: a start that is not a no-op sets the flag,
    zeroes [message_count] and empties the log, and the watchdog's start
    sets the flag and empties the log. *)
Lemma start_resets_count_and_logs (user_config : AutomationConfig)
    (user_id : string) (a : App) :
  AutomationState.running (automation_state (session_state a)) = false ->
  let st := automation_state (session_state (start_automation user_config user_id a)) in
  AutomationState.running st = true
  /\ AutomationState.message_count st = 0
  /\ AutomationState.logs st = []
  /\ AutomationState.message_rotation_index st
     = AutomationState.message_rotation_index (automation_state (session_state a)).
Proof.
  intros Hrun. unfold start_automation. rewrite Hrun. cbn. auto.
Qed.

Lemma start_lock_system_resets (user_id : string) (a : App) :
  match lock_state (session_state a) with
  | Some ls => LockState.running ls = false
  | None => True
  end ->
  lock_state (session_state (start_lock_system user_id a))
  = Some (LockState.Make true []).
Proof.
  intros Hrun. unfold start_lock_system.
  destruct (lock_state (session_state a)) as [ls|] eqn:Hls; cbn.
  - rewrite Hls, Hrun. reflexivity.
  - reflexivity.
Qed.

(** C6 fails on the rotation index: started again after a run that sent two
    messages, the state has its log emptied and its count at zero, but
    [message_rotation_index] is still 2, and the first message of the new
    run is the third of the list. *)
Lemma start_automation_keeps_rotation_index :
  let a := with_automation_state after_two_messages (fresh_app demo_db) in
  let st := automation_state (session_state (start_automation demo_config "ann" a)) in
  st = AutomationState.Make true 0 [] 2
  /\ fst (get_next_message ["m0"; "m1"; "m2"] (Some st)) = Ok "m2".
Proof. split; reflexivity. Qed.

(** ** Cookies *)

Lemma index_of_lt (ch : ascii) (s : string) (n : nat) :
  PyStr.index_of ch s = Some n -> (n < String.length s)%nat.
Proof.
  revert n. induction s as [|c s IH]; intros n; simpl; [discriminate|].
  destruct (Ascii.eqb c ch).
  - intros [= <-]. lia.
  - destruct (PyStr.index_of ch s) as [k|]; simpl; [|discriminate].
    intros [= <-]. specialize (IH k eq_refl). lia.
Qed.

Lemma cut_at_first_index (ch : ascii) (s : string) :
  cut_at_first ch s =
    match PyStr.index_of ch s with
    | Some n => Some (PyStr.take n s, PyStr.drop (S n) s)
    | None => None
    end.
Proof.
  induction s as [|c s IH]; simpl; [reflexivity|].
  destruct (Ascii.eqb c ch).
  - simpl. now destruct s.
  - rewrite IH. destruct (PyStr.index_of ch s) as [k|]; reflexivity.
Qed.

Lemma slice_to_take (s : string) (n : nat) :
  (n <= String.length s)%nat -> PyStr.slice_to s (Z.of_nat n) = PyStr.take n s.
Proof.
  intros Hn. unfold PyStr.slice_to, PyStr.bound.
  destruct (Z.of_nat n <? 0) eqn:Hneg; [lia|].
  rewrite Z.min_l by lia. now rewrite Nat2Z.id.
Qed.

Lemma slice_from_drop (s : string) (n : nat) :
  (n <= String.length s)%nat -> PyStr.slice_from s (Z.of_nat n) = PyStr.drop n s.
Proof.
  intros Hn. unfold PyStr.slice_from, PyStr.bound.
  destruct (Z.of_nat n <? 0) eqn:Hneg; [lia|].
  rewrite Z.min_l by lia. now rewrite Nat2Z.id.
Qed.

(** What the source computes for one trimmed segment with [find] and two
    slices is the cut at the first [=]. *)
Lemma find_and_slices (t : string) :
  let i := PyStr.find "=" t in
  (if PyStr.truthy t && (i >? 0)
   then [(PyStr.strip (PyStr.slice_to t i), PyStr.strip (PyStr.slice_from t (i + 1)))]
   else [])
  = match cut_at_first "=" t with
    | Some (name, value) =>
        if PyStr.truthy name then [(PyStr.strip name, PyStr.strip value)] else []
    | None => []
    end.
Proof.
  cbv zeta. rewrite cut_at_first_index. unfold PyStr.find.
  destruct (PyStr.index_of "=" t) as [n|] eqn:Hn.
  - pose proof (index_of_lt _ _ _ Hn) as Hlt.
    destruct t as [|c t]; [discriminate|]. simpl PyStr.truthy.
    destruct n as [|n].
    + reflexivity.
    + replace (Z.of_nat (S n) >? 0) with true by (symmetry; apply Z.gtb_lt; lia).
      cbn [andb PyStr.take PyStr.truthy].
      rewrite slice_to_take by lia.
      replace (Z.of_nat (S n) + 1) with (Z.of_nat (S (S n))) by lia.
      rewrite slice_from_drop by lia. reflexivity.
  - now rewrite andb_false_r.
Qed.

Section CookieRun.
Context {S : Type} `{RunState S}.
Variable env : Env.

Lemma cookies_tried_add_events (pairs : list (string * string)) :
  cookies_tried (add_events pairs) = pairs.
Proof.
  induction pairs as [|[n v] pairs IH]; simpl; [reflexivity|]. now rewrite IH.
Qed.

Lemma cookies_tried_app (h1 h2 : list Event) :
  cookies_tried (h1 ++ h2) = cookies_tried h1 ++ cookies_tried h2.
Proof. unfold cookies_tried. apply flat_map_app. Qed.

Lemma grown_nil (w : World S) : grown w [] = w.
Proof. destruct w. unfold grown. simpl. now rewrite app_nil_r. Qed.

Lemma grown_grown (w : World S) (a b : list Event) :
  grown (grown w a) b = grown w (a ++ b).
Proof. unfold grown. simpl. now rewrite app_assoc. Qed.

(** The cookie loop never raises, touches nothing but the history, and
    hands every well-formed pair to [add_cookie], in order, whether earlier
    ones were refused or not. *)
Lemma add_cookies_run (driver : Driver) (raw : string) (w : World S) :
  add_cookies env driver (Some raw) w
  = (Ok tt, grown w (add_events (cookie_pairs raw))).
Proof.
  unfold add_cookies, try_except.
  destruct (PyStr.truthy raw) eqn:Hraw.
  2:{ destruct raw; [|discriminate]. simpl. now rewrite grown_nil. }
  unfold cookie_pairs.
  generalize (PyStr.split ";" raw). intros l.
  assert (Hloop : forall w0 : World S,
    for_each l (fun cookie =>
      let cookie_trimmed := PyStr.strip cookie in
      if PyStr.truthy cookie_trimmed then
        let first_equal_index := PyStr.find "=" cookie_trimmed in
        if first_equal_index >? 0 then
          let name := PyStr.strip (PyStr.slice_to cookie_trimmed first_equal_index) in
          let value :=
            PyStr.strip (PyStr.slice_from cookie_trimmed (first_equal_index + 1)) in
          (fun w1 =>
             match call env (EAddCookie name value) (fun _ => tt) w1 with
             | (Raised e, w') => ret tt w'
             | r => r
             end)
        else ret tt
      else ret tt)%py w0
    = (Ok tt, grown w0 (add_events (flat_map segment_pairs l)))).
  { induction l as [|cookie l IH]; intros w0.
    - simpl. unfold ret. now rewrite grown_nil.
    - cbn [for_each flat_map]. unfold bind at 1. cbv zeta.
      unfold segment_pairs at 1.
      rewrite <- (find_and_slices (PyStr.strip cookie)). cbv zeta.
      destruct (PyStr.truthy (PyStr.strip cookie)); cbn [andb].
      2:{ unfold ret at 1. simpl "++". apply IH. }
      destruct (PyStr.find "=" (PyStr.strip cookie) >? 0).
      2:{ unfold ret at 1. simpl "++". apply IH. }
      unfold call.
      destruct (env_raises env (trace w0) _); unfold ret at 1;
        rewrite IH; unfold add_events; rewrite map_app; simpl map;
        now rewrite <- grown_grown. }
  unfold try_except in Hloop. rewrite Hloop. reflexivity.
Qed.

End CookieRun.

Lemma index_of_occurs (ch : ascii) (s : string) :
  PyStr.index_of ch s = None <-> occurs ch s = false.
Proof.
  induction s as [|c s IH]; simpl; [tauto|].
  destruct (Ascii.eqb c ch); simpl.
  - split; discriminate.
  - destruct (PyStr.index_of ch s); simpl.
    + split; [discriminate|]. intros Hocc. apply IH in Hocc. discriminate.
    + split; [|reflexivity]. intros _. now apply IH.
Qed.

Lemma cut_at_first_app (ch : ascii) (name value : string) :
  occurs ch name = false ->
  cut_at_first ch (name +:+ String ch value) = Some (name, value).
Proof.
  induction name as [|c name IH]; intros Hocc.
  - change (cut_at_first ch (String ch value) = Some ("", value)).
    simpl. now rewrite Ascii.eqb_refl.
  - change (cut_at_first ch (String c (name +:+ String ch value))
            = Some (String c name, value)).
    simpl in Hocc |- *. destruct (Ascii.eqb c ch); [discriminate|].
    now rewrite IH.
Qed.

(** When a segment gives a pair, in terms of [find] on the trimmed text. *)
Lemma segment_pairs_find (segment : string) :
  segment_pairs segment <> [] <-> PyStr.find "=" (PyStr.strip segment) > 0.
Proof.
  unfold segment_pairs. rewrite <- find_and_slices. cbv zeta.
  set (t := PyStr.strip segment).
  destruct (PyStr.truthy t) eqn:Ht; cbn [andb].
  - destruct (PyStr.find "=" t >? 0) eqn:Hpos.
    + split; [intros _; now apply Z.gtb_lt in Hpos; lia | discriminate].
    + split; [congruence|]. intros Hgt.
      assert ((PyStr.find "=" t >? 0) = true) by (apply Z.gtb_lt; lia). congruence.
  - destruct t; [|discriminate]. split; [congruence|]. cbv. discriminate.
Qed.

(** C4. The cookie text is split on [;], each segment trimmed, and a
    segment that is empty after trimming gives nothing; a segment is cut at
    its first [=] only, so that what follows, further [=] included, is the
    value; ["a=1;b=2=3"] gives exactly [a:"1"] and [b:"2=3"]; and every pair
    is handed to [add_cookie] in order, whichever of the calls the browser
    refuses: the loop goes on and never raises. *)
Theorem cookie_parsing (S : Type) (RS : RunState S) (env : Env)
    (driver : Driver) (raw : string) (w : World S) :
  add_cookies env driver (Some raw) w
    = (Ok tt, grown w (add_events
                         (flat_map segment_pairs (PyStr.split ";" raw))))
  /\ (forall segment, PyStr.strip segment = "" -> segment_pairs segment = [])
  /\ (forall segment name value,
        PyStr.strip segment = name +:+ String "=" value ->
        occurs "=" name = false ->
        name <> "" ->
        segment_pairs segment = [(PyStr.strip name, PyStr.strip value)])
  /\ cookie_pairs "a=1;b=2=3" = [("a", "1"); ("b", "2=3")].
Proof.
  split; [apply add_cookies_run|]. split; [|split].
  - intros segment Hs. unfold segment_pairs. now rewrite Hs.
  - intros segment name value Hs Hocc Hne. unfold segment_pairs.
    rewrite Hs, cut_at_first_app by assumption.
    destruct name; [congruence|reflexivity].
  - reflexivity.
Qed.

Lemma cookie_parsing_witness :
  segment_pairs " b = 2=3 " = [("b", "2=3")]
  /\ cookies_tried
       (trace (snd (add_cookies refuses_a ChromeDriver (Some "a=1;b=2=3")
                      (MkWorld [] empty_db "ann" LockState.init))))
     = [("a", "1"); ("b", "2=3")].
Proof.
  split.
  - apply (proj1 (proj2 (proj2
             (cookie_parsing _ _ refuses_a ChromeDriver ""
                (MkWorld [] empty_db "ann" LockState.init))))
             " b = 2=3 " "b " " 2=3");
      [reflexivity | reflexivity | discriminate].
  - rewrite (proj1 (cookie_parsing _ _ refuses_a ChromeDriver "a=1;b=2=3"
                      (MkWorld [] empty_db "ann" LockState.init))).
    reflexivity.
Defined.

(** C9. A trimmed segment without any [=], or with its first [=] in front
    (an empty name), gives no pair: the segments that give one are those
    whose first [=] stands at a position greater than zero, and they give
    exactly one. Nothing is handed to [add_cookie] for the others, and the
    loop raises nothing. *)
Theorem malformed_segments_dropped (S : Type) (RS : RunState S) (env : Env)
    (driver : Driver) (raw : string) (w : World S) :
  fst (add_cookies env driver (Some raw) w) = Ok tt
  /\ cookies_tried (trace (snd (add_cookies env driver (Some raw) w)))
     = cookies_tried (trace w) ++ flat_map segment_pairs (PyStr.split ";" raw)
  /\ (forall segment,
        occurs "=" (PyStr.strip segment) = false -> segment_pairs segment = [])
  /\ (forall segment rest,
        PyStr.strip segment = String "=" rest -> segment_pairs segment = [])
  /\ (forall segment,
        segment_pairs segment <> [] <-> PyStr.find "=" (PyStr.strip segment) > 0)
  /\ (forall segment, (length (segment_pairs segment) <= 1)%nat).
Proof.
  rewrite add_cookies_run. cbn [fst snd]. split; [reflexivity|].
  split; [|split; [|split; [|split]]].
  - unfold grown. cbn [trace]. rewrite cookies_tried_app.
    now rewrite cookies_tried_add_events.
  - intros segment Hocc. unfold segment_pairs. rewrite cut_at_first_index.
    apply index_of_occurs in Hocc. now rewrite Hocc.
  - intros segment rest Hs. unfold segment_pairs. now rewrite Hs.
  - apply segment_pairs_find.
  - intros segment. unfold segment_pairs.
    destruct (cut_at_first "=" (PyStr.strip segment)) as [[n v]|]; simpl; [|lia].
    destruct (PyStr.truthy n); simpl; lia.
Qed.

Lemma malformed_segments_dropped_witness :
  segment_pairs " novalue " = [] /\ segment_pairs "=x" = []
  /\ PyStr.find "=" (PyStr.strip " b = 2=3 ") > 0.
Proof.
  pose proof (malformed_segments_dropped _ _ refuses_a ChromeDriver ""
                (MkWorld [] empty_db "ann" LockState.init)) as (_ & _ & Hno & Hfront & Hpos & _).
  split; [|split].
  - apply Hno. reflexivity.
  - apply (Hfront "=x" "x"). reflexivity.
  - apply Hpos. vm_compute. discriminate.
Defined.

(** ** Rules for running the thread bodies *)

Section Rules.
Context {S : Type} `{RunState S}.
Variable env : Env.

Lemma wp_ret {A} (a : A) (w : World S) Q : Q (Ok a) w -> wp (ret a) w Q.
Proof. exact (fun q => q). Qed.

Lemma wp_raise {A} (e : string) (w : World S) (Q : Res A -> World S -> Prop) :
  Q (Raised e) w -> wp (raise e) w Q.
Proof. exact (fun q => q). Qed.

Lemma wp_diverge {A} (w : World S) (Q : Res A -> World S -> Prop) :
  Q Diverged w -> wp diverge w Q.
Proof. exact (fun q => q). Qed.

Lemma wp_bind {A B} (m : M S A) (k : A -> M S B) (w : World S) Q :
  wp m w (fun r w' =>
            match r with
            | Ok a => wp (k a) w' Q
            | Raised e => Q (Raised e) w'
            | Diverged => Q Diverged w'
            end) ->
  wp (bind m k) w Q.
Proof. unfold wp, bind. now destruct (m w) as [[a|e|] w']. Qed.

Lemma wp_try_except {A} (body : M S A) (handler : string -> M S A)
    (w : World S) Q :
  wp body w (fun r w' =>
               match r with
               | Raised e => wp (handler e) w' Q
               | _ => Q r w'
               end) ->
  wp (try_except body handler) w Q.
Proof. unfold wp, try_except. now destruct (body w) as [[a|e|] w']. Qed.

Lemma wp_try_finally {A} (body : M S A) (cleanup : M S unit) (w : World S) Q :
  wp body w (fun r w' =>
               match r with
               | Diverged => Q Diverged w'
               | _ => wp cleanup w' (fun c w'' =>
                        match c with
                        | Ok _ => Q r w''
                        | Raised e => Q (Raised e) w''
                        | Diverged => Q Diverged w''
                        end)
               end) ->
  wp (try_finally body cleanup) w Q.
Proof.
  unfold wp, try_finally.
  destruct (body w) as [[a|e|] w']; cbn; try easy;
    now destruct (cleanup w') as [[c|e'|] w''].
Qed.

Lemma wp_call {A} (ev : Event) (answer : list Event -> A) (w : World S) Q :
  (forall e, env_raises env (trace w) ev = Some e -> Q (Raised e) (grown w [ev])) ->
  (env_raises env (trace w) ev = None -> Q (Ok (answer (trace w))) (grown w [ev])) ->
  wp (call env ev answer) w Q.
Proof.
  intros Hr Hok. unfold wp, call.
  destruct (env_raises env (trace w) ev) as [e|]; cbn; auto.
Qed.

Lemma wp_sleep (ms : Z) (w : World S) Q :
  0 <= ms <= max_sleep_ms ->
  Q (Ok tt) (slept env ms w) -> wp (sleep env ms) w Q.
Proof.
  intros Hms HQ. unfold wp, sleep.
  destruct (ms <? 0) eqn:Hneg; [lia|].
  destruct (max_sleep_ms <? ms) eqn:Hbig; [lia|].
  unfold slept in HQ. unfold record.
  now destruct (env_stop env (trace w)).
Qed.

Lemma wp_log (msg : string) (w : World S) Q :
  Q (Ok tt) (logged env msg w) -> wp (log_message env msg) w Q.
Proof. exact (fun q => q). Qed.

Lemma wp_enter (fn : string) (w : World S) Q :
  Q (Ok tt) (grown w [EEnter fn]) -> wp (enter fn) w Q.
Proof. exact (fun q => q). Qed.

Lemma wp_modify_state (f : S -> S) (w : World S) Q :
  Q (Ok tt) (MkWorld (trace w) (db w) (session_user w) (f (state w))) ->
  wp (modify_state f) w Q.
Proof. exact (fun q => q). Qed.

Lemma wp_modify_db (f : Db -> Db) (w : World S) Q :
  Q (Ok tt) (MkWorld (trace w) (f (db w)) (session_user w) (state w)) ->
  wp (modify_db f) w Q.
Proof. exact (fun q => q). Qed.

Lemma wp_get_state (w : World S) Q :
  Q (Ok (state w)) w -> wp get_state w Q.
Proof. exact (fun q => q). Qed.

Lemma wp_weaken {A} (m : M S A) (w : World S) (Q Q' : Res A -> World S -> Prop) :
  wp m w Q -> (forall r w', Q r w' -> Q' r w') -> wp m w Q'.
Proof. unfold wp. auto. Qed.

Lemma wp_run {A} (m : M S A) (w : World S) Q :
  wp m w Q -> Q (fst (m w)) (snd (m w)).
Proof. exact (fun q => q). Qed.

End Rules.

(** One step through a thread body. *)
Ltac wp_step :=
  lazymatch goal with
  | |- wp (bind _ _) _ _ => apply wp_bind
  | |- wp (try_except _ _) _ _ => apply wp_try_except
  | |- wp (try_finally _ _) _ _ => apply wp_try_finally
  | |- wp (ret _) _ _ => apply wp_ret
  | |- wp (raise _) _ _ => apply wp_raise
  | |- wp diverge _ _ => apply wp_diverge
  | |- wp (log_message _ _) _ _ => apply wp_log
  | |- wp (enter _) _ _ => apply wp_enter
  | |- wp (modify_state _) _ _ => apply wp_modify_state
  | |- wp (modify_db _) _ _ => apply wp_modify_db
  | |- wp get_state _ _ => apply wp_get_state
  | |- wp (sleep _ _) _ _ => apply wp_sleep; [unfold max_sleep_ms; lia|]
  | |- wp (execute_script _ _ _) _ _ => unfold execute_script
  | |- wp (call _ _ _) _ _ => apply wp_call; [intros ?e ?Hraise|intros ?Hok]
  end; cbv beta iota.

Ltac wp_steps := repeat wp_step.

(** ** Reverter *)

Lemma scripts_app (h1 h2 : list Event) :
  scripts (h1 ++ h2) = scripts h1 ++ scripts h2.
Proof. unfold scripts. apply flat_map_app. Qed.

(** C2, amended. When no script raises: if the info step found its control,
    the edit, set-value, save and close steps are all run, whatever any of
    them finds; if the info step found none, no later step is run and the
    log says that the info button could not be found. *)
Theorem reverter_steps (env : Env) (driver : Driver) (locked_name : string)
    (w : World LockState.t) :
  (forall h js args, env_raises env h (EExecuteScript js args) = None) ->
  let entered := trace w ++ [EEnter "revert_group_name"] in
  let found := truthy (env_script env entered ClickInfoButton []) in
  let run := revert_group_name env driver locked_name w in
  fst run = Ok tt
  /\ scripts (trace (snd run))
     = scripts (trace w)
       ++ (if found
           then [ClickInfoButton; ClickEditButton; SetNameInput;
                 ClickSaveButton; ClickCloseButton]
           else [ClickInfoButton])
  /\ (found = false ->
      LockState.logs (state (snd run))
      = LockState.logs (state w)
        ++ [ entry env entered
               ("LOCK: Reverting group name to " +:+ quoted locked_name +:+ "...");
             entry env (entered ++ [EExecuteScript ClickInfoButton []; ESleep 2000])
               "LOCK: Could not find info button to revert" ]).
Proof.
  intros Hquiet entered found run. subst run.
  apply (wp_run (revert_group_name env driver locked_name) w
           (fun r w' => r = Ok tt /\ scripts (trace w') = _
                        /\ (found = false -> LockState.logs (state w') = _))).
  unfold revert_group_name.
  repeat (wp_step;
          try match goal with
              | Hr : env_raises _ _ _ = Some _ |- _ =>
                  rewrite Hquiet in Hr; discriminate
              end).
  cbn [trace logged grown] in *. fold entered. fold found.
  destruct found eqn:Hfound;
    repeat (wp_step;
            try match goal with
                | Hr : env_raises _ _ _ = Some _ |- _ =>
                    rewrite Hquiet in Hr; discriminate
                end);
    (split; [reflexivity|split]).
  - cbn [trace logged grown slept]. rewrite !scripts_app. cbn.
    now rewrite <- !app_assoc.
  - discriminate.
  - cbn [trace logged grown slept]. rewrite !scripts_app. cbn.
    now rewrite <- !app_assoc, ?app_nil_r.
  - intros _. cbn. subst entered.
    destruct (env_stop env _); cbn; rewrite <- !app_assoc; reflexivity.
Qed.

Lemma reverter_steps_witness :
  scripts (trace (snd (revert_group_name (quiet_env empty_page (VBool true))
                         ChromeDriver "Y"
                         (MkWorld [] empty_db "ann" (LockState.Make true [])))))
  = [ClickInfoButton; ClickEditButton; SetNameInput; ClickSaveButton;
     ClickCloseButton].
Proof.
  apply (proj1 (proj2 (reverter_steps (quiet_env empty_page (VBool true))
                         ChromeDriver "Y"
                         (MkWorld [] empty_db "ann" (LockState.Make true []))
                         (fun _ _ _ => eq_refl)))).
Defined.

(** C2, as stated, fails at its first step. On a page where no control is
    found anywhere (every script hands back [false], none raises), the
    reverter runs the info script and stops: the edit, set-value, save and
    close scripts are not run. *)
Lemma reverter_stops_without_info_button :
  let run := revert_group_name (quiet_env empty_page (VBool false))
               ChromeDriver "Y"
               (MkWorld [] empty_db "ann" (LockState.Make true [])) in
  fst run = Ok tt
  /\ scripts (trace (snd run)) = [ClickInfoButton]
  /\ LockState.logs (state (snd run))
     = [ "[12:00:00] LOCK: Reverting group name to " +:+ quoted "Y" +:+ "...";
         "[12:00:00] LOCK: Could not find info button to revert" ].
Proof. repeat split. Qed.


(** ** Watchdog tick *)

Lemma entries_app (fn : string) (h1 h2 : list Event) :
  entries fn (h1 ++ h2) = (entries fn h1 + entries fn h2)%nat.
Proof. unfold entries. now rewrite List.filter_app, length_app. Qed.

(** However its scripts fare, a call of the reverter is one entry in the
    history, returns normally and leaves the earlier log lines in place. *)
Lemma revert_group_name_entered (env : Env) (driver : Driver)
    (locked_name : string) (w : World LockState.t) :
  wp (revert_group_name env driver locked_name) w
    (fun r w' =>
       r = Ok tt
       /\ entries "revert_group_name" (trace w')
          = S (entries "revert_group_name" (trace w))
       /\ exists more, LockState.logs (state w') = LockState.logs (state w) ++ more).
Proof.
  unfold revert_group_name.
  repeat (wp_step;
          try match goal with
              | |- wp (if ?b then _ else _) _ _ => destruct b
              end);
    (split; [reflexivity|split]);
    try (cbn [trace logged grown slept]; rewrite !entries_app; cbn; lia);
    cbn [state logged grown slept rs_logs rs_set_logs LockState_RunState
         rs_set_running];
    repeat match goal with
           | |- context [if ?b then _ else _] => destruct b
           end;
    cbn; rewrite <- ?app_assoc; eexists; reflexivity.
Qed.

(** C1. On a tick that read a non-empty current name while a locked name is
    configured: when the two differ the reverter is entered exactly once;
    when they are equal it is not entered, and the tick's check line is
    followed in the log by the confirmation line. *)
Theorem watchdog_tick (env : Env) (driver : Driver) (lock_config : LockConfig)
    (check_count : Z) (w : World LockState.t) (current locked : string) :
  env_raises env (trace w) (EExecuteScript ReadGroupName []) = None ->
  env_script env (trace w) ReadGroupName [] = VStr current ->
  current <> "" ->
  locked_group_name lock_config = Some locked ->
  locked <> "" ->
  let run := lock_tick env driver lock_config check_count w in
  fst run = Ok tt
  /\ (current <> locked ->
      entries "revert_group_name" (trace (snd run))
      = S (entries "revert_group_name" (trace w)))
  /\ (current = locked ->
      entries "revert_group_name" (trace (snd run))
      = entries "revert_group_name" (trace w)
      /\ LockState.logs (state (snd run))
         = LockState.logs (state w)
           ++ [ entry env (trace w)
                  ("LOCK: Check #" +:+ str_of_Z check_count
                   +:+ " - Monitoring group...");
                entry env (trace w ++ [EExecuteScript ReadGroupName []])
                  ("LOCK: Group name locked: " +:+ quoted current) ]).
Proof.
  intros Hquiet Hread Hcur Hcfg Hlocked run. subst run.
  apply (wp_run (lock_tick env driver lock_config check_count) w
           (fun r w' => r = Ok tt
              /\ (current <> locked -> entries _ (trace w') = _)
              /\ (current = locked ->
                  entries _ (trace w') = _ /\ LockState.logs (state w') = _))).
  unfold lock_tick.
  do 7 wp_step.
  { cbn [trace logged] in Hraise. congruence. }
  cbn [trace logged]. rewrite Hread, Hcfg.
  replace (truthy (VStr current) && opt_truthy (Some locked)) with true
    by (destruct current, locked; cbn; congruence).
  cbn [or_empty value_eq_str py_str].
  destruct (String.eqb current locked) eqn:Heq; cbn [negb].
  - apply String.eqb_eq in Heq.
    wp_steps. split; [reflexivity|]. split; [congruence|]. intros _.
    cbn [trace logged grown slept]. rewrite !entries_app. cbn.
    split; [lia|].
    destruct (env_stop env _); cbn; rewrite <- !app_assoc; reflexivity.
  - apply String.eqb_neq in Heq.
    do 2 wp_step.
    eapply wp_weaken; [apply revert_group_name_entered|].
    intros r w' (-> & Hent & _). cbv beta iota.
    wp_steps. split; [reflexivity|]. split; [|congruence]. intros _.
    cbn [trace slept]. rewrite entries_app, Hent. cbn [trace logged grown].
    rewrite entries_app. cbn. lia.
Qed.

Lemma watchdog_tick_witness :
  let w := MkWorld [] empty_db "ann" (LockState.Make true []) in
  entries "revert_group_name"
    (trace (snd (lock_tick (quiet_env empty_page (VStr "X")) ChromeDriver
                   locked_to_Y 1 w))) = 1%nat
  /\ entries "revert_group_name"
       (trace (snd (lock_tick (quiet_env empty_page (VStr "Y")) ChromeDriver
                      locked_to_Y 1 w))) = 0%nat.
Proof.
  cbv zeta. split.
  - apply (proj1 (proj2 (watchdog_tick (quiet_env empty_page (VStr "X"))
                           ChromeDriver locked_to_Y 1
                           (MkWorld [] empty_db "ann" (LockState.Make true []))
                           "X" "Y" eq_refl eq_refl ltac:(discriminate) eq_refl
                           ltac:(discriminate)))).
    discriminate.
  - apply (proj2 (proj2 (watchdog_tick (quiet_env empty_page (VStr "Y"))
                           ChromeDriver locked_to_Y 1
                           (MkWorld [] empty_db "ann" (LockState.Make true []))
                           "Y" "Y" eq_refl eq_refl ltac:(discriminate) eq_refl
                           ltac:(discriminate)))).
    reflexivity.
Defined.

(** ** Watchdog without a group id *)

Lemma get_set_lock_enabled (user : string) (value : bool) (d : Db) :
  get_lock_enabled user (set_lock_enabled user value d)
  = match users d !! user with Some _ => value | None => false end.
Proof.
  unfold get_lock_enabled, set_lock_enabled. cbn.
  destruct (users d !! user) as [row|] eqn:Hrow.
  - now rewrite lookup_insert_eq.
  - now rewrite Hrow.
Qed.

Lemma lock_enabled_cleared (user : string) (d : Db) :
  get_lock_enabled user (set_lock_enabled user false d) = false.
Proof. rewrite get_set_lock_enabled. now destruct (users d !! user). Qed.

Lemma scripts_add_events (pairs : list (string * string)) :
  scripts (add_events pairs) = [].
Proof. induction pairs as [|[n v] pairs IH]; [reflexivity|]. exact IH. Qed.

Lemma wp_add_cookies {S} `{RunState S} (env : Env) (driver : Driver)
    (cookies : option string) (w : World S) Q :
  Q (Ok tt) (grown w (add_events (pairs_of cookies))) ->
  wp (add_cookies env driver cookies) w Q.
Proof.
  intros HQ. unfold wp. destruct cookies as [raw|].
  - now rewrite add_cookies_run.
  - cbn in *. now rewrite grown_nil in HQ.
Qed.

Lemma if_same {A} (b : bool) (x : A) : (if b then x else x) = x.
Proof. now destruct b. Qed.

Lemma lock_logs_if (b : bool) (x y : LockState.t) :
  LockState.logs (if b then x else y)
  = if b then LockState.logs x else LockState.logs y.
Proof. now destruct b. Qed.

Lemma lock_running_if (b : bool) (x y : LockState.t) :
  LockState.running (if b then x else y)
  = if b then LockState.running x else LockState.running y.
Proof. now destruct b. Qed.

Lemma auto_logs_if (b : bool) (x y : AutomationState.t) :
  AutomationState.logs (if b then x else y)
  = if b then AutomationState.logs x else AutomationState.logs y.
Proof. now destruct b. Qed.

Lemma auto_running_if (b : bool) (x y : AutomationState.t) :
  AutomationState.running (if b then x else y)
  = if b then AutomationState.running x else AutomationState.running y.
Proof. now destruct b. Qed.

Lemma auto_count_if (b : bool) (x y : AutomationState.t) :
  AutomationState.message_count (if b then x else y)
  = if b then AutomationState.message_count x
    else AutomationState.message_count y.
Proof. now destruct b. Qed.

Lemma auto_index_if (b : bool) (x y : AutomationState.t) :
  AutomationState.message_rotation_index (if b then x else y)
  = if b then AutomationState.message_rotation_index x
    else AutomationState.message_rotation_index y.
Proof. now destruct b. Qed.

(** Worlds and states brought to their fields. *)
Ltac wp_norm :=
  repeat progress
    (cbn [trace db session_user state logged grown slept
          rs_running rs_set_running rs_logs rs_set_logs rs_stop_db
          LockState_RunState AutomationState_RunState
          LockState.running LockState.logs LockState.set_running
          LockState.set_logs
          AutomationState.running AutomationState.logs
          AutomationState.message_count AutomationState.message_rotation_index
          AutomationState.set_running AutomationState.set_logs
          AutomationState.set_message_count
          AutomationState.set_message_rotation_index];
     rewrite ?lock_logs_if, ?auto_logs_if, ?auto_count_if, ?auto_index_if,
       ?if_same).

Lemma scripts_launch (env : Env) : scripts [launch_event env] = [].
Proof. unfold launch_event. now destruct (opt_truthy _). Qed.

(** C10, amended. With an empty or missing [chat_id] the watchdog never polls:
    whatever fuel the loop is given and whatever the browser does, the
    function returns, no script was run, the running flag is cleared and the
    user's persisted lock flag reads false; and when the browser started and
    the first page loaded, the log holds the line that a group id is
    required. *)
Theorem watchdog_requires_group_id (env : Env) (fuel : nat)
    (lock_config : LockConfig) (user_id : string) (w : World LockState.t) :
  opt_truthy (chat_id lock_config) = false ->
  let run := monitor_and_lock_group env fuel lock_config user_id w in
  fst run = Ok tt
  /\ scripts (trace (snd run)) = scripts (trace w)
  /\ LockState.running (state (snd run)) = false
  /\ get_lock_enabled user_id (db (snd run)) = false
  /\ ((forall h,
         env_raises env h (launch_event env) = None
         /\ env_raises env h (ESetWindowSize 1920 1080) = None
         /\ env_raises env h (EGet "https://www.facebook.com/") = None) ->
      exists h before after,
        LockState.logs (state (snd run))
        = before ++ [entry env h "LOCK: Group ID required!"] ++ after).
Proof.
  intros Hchat run. subst run.
  apply (wp_run (monitor_and_lock_group env fuel lock_config user_id) w
           (fun r w' => r = Ok tt /\ scripts (trace w') = _
              /\ LockState.running (state w') = false
              /\ get_lock_enabled user_id (db w') = false
              /\ (_ -> exists h before after, LockState.logs (state w') = _))).
  unfold monitor_and_lock_group, setup_browser, lock_off, quit_driver.
  rewrite Hchat. cbn [negb].
  repeat ((wp_step || apply wp_add_cookies); wp_norm);
    (split; [reflexivity|]);
    (split; [rewrite ?scripts_app, ?scripts_add_events, ?scripts_launch; cbn;
             now rewrite ?app_nil_r|]);
    (split; [reflexivity|]);
    (split; [apply lock_enabled_cleared|]);
    intros Hq;
    try match goal with
        | Hr : env_raises _ ?h _ = Some _ |- _ =>
            destruct (Hq h) as (? & ? & ?); congruence
        end.
  - eexists _, _, []. cbn. reflexivity.
  - eexists _, _, _. rewrite <- app_assoc. reflexivity.
Qed.

Lemma watchdog_requires_group_id_witness :
  let run := monitor_and_lock_group (quiet_env empty_page VNone) 0 no_group_id
               "ann" locked_world in
  get_lock_enabled "ann" (db locked_world) = true
  /\ fst run = Ok tt
  /\ scripts (trace (snd run)) = []
  /\ LockState.running (state (snd run)) = false
  /\ get_lock_enabled "ann" (db (snd run)) = false
  /\ exists h before after,
       LockState.logs (state (snd run))
       = before ++ [entry (quiet_env empty_page VNone) h "LOCK: Group ID required!"]
         ++ after.
Proof.
  cbv zeta.
  pose proof (watchdog_requires_group_id (quiet_env empty_page VNone) 0
                no_group_id "ann" locked_world eq_refl)
    as (Hret & Hscripts & Hrun & Hflag & Hlog).
  split; [reflexivity|].
  repeat (split; [assumption|]).
  apply Hlog. intros h. repeat split.
Defined.

(** C10, as stated, fails when the run does not reach the test of the group
    id. With no group id and a browser that cannot be started, the watchdog
    returns without a tick, with the running flag and the user's lock flag
    cleared, but the log holds the browser error and no line that a group id
    is required. *)
Lemma watchdog_without_browser_skips_group_id_line :
  let run := monitor_and_lock_group no_browser_env 3 no_group_id "ann"
               locked_world in
  fst run = Ok tt
  /\ scripts (trace (snd run)) = []
  /\ LockState.running (state (snd run)) = false
  /\ get_lock_enabled "ann" (db (snd run)) = false
  /\ LockState.logs (state (snd run))
     = [ "[12:00:00] LOCK: Starting Group Name & Nickname Lock System...";
         "[12:00:00] Setting up Chrome browser...";
         "[12:00:00] Browser setup failed: chromedriver not found";
         "[12:00:00] LOCK: Browser error: chromedriver not found" ].
Proof. vm_compute. repeat split. Qed.

(** ** Dispatcher loop *)



Lemma next_message_nonempty (messages : list string) (w : World AutomationState.t) :
  messages <> [] ->
  let i := AutomationState.message_rotation_index (state w) in
  next_message messages w
  = (Ok (nth (Z.to_nat (i mod Z.of_nat (length messages))) messages "Hello!"),
     MkWorld (trace w) (db w) (session_user w)
       (AutomationState.set_message_rotation_index (i + 1) (state w))).
Proof.
  intros Hne i. unfold next_message.
  now rewrite get_next_message_nonempty.
Qed.



(** The whole thread on the same two environments: the failed send ends the
    run after one attempt with the flag cleared, and so does the stop
    pressed during a pause, after the two messages sent until then. *)
Lemma dispatcher_runs :
  let failed := send_messages stale_env 5 demo_config "ann" "AUTO-1" running_world in
  let stopped := send_messages stopping_env 5 demo_config "ann" "AUTO-1" running_world in
  fst failed = Ok 0
  /\ AutomationState.running (state (snd failed)) = false
  /\ scripts (trace (snd failed))
     = [ScrollToBottom; ScrollToTop; IsEditable; ElementText; SetMessage]
  /\ fst stopped = Ok 2
  /\ AutomationState.running (state (snd stopped)) = false
  /\ AutomationState.message_count (state (snd stopped)) = 2.
Proof. vm_compute. repeat split. Qed.

(** ** Element locator *)

Lemma finds_app (h1 h2 : list Event) : finds (h1 ++ h2) = finds h1 ++ finds h2.
Proof. unfold finds. apply flat_map_app. Qed.

Section Locator.
Context {S : Type} `{RunState S}.
Variables (env : Env) (p : Page).
Hypothesis Hrenders : renders env p.

Ltac page_step :=
  lazymatch goal with
  | |- wp (call _ _ _) _ _ =>
      apply wp_call;
      [ let e := fresh "e" in
        let Hr := fresh "Hraise" in
        intros e Hr;
        first [ rewrite (proj1 (renders_displayed _ _ Hrenders _ _)) in Hr
              | rewrite (proj1 (renders_size _ _ Hrenders _ _)) in Hr
              | rewrite (renders_click _ _ Hrenders _ _) in Hr
              | rewrite (proj1 (renders_editable _ _ Hrenders _ _)) in Hr
              | rewrite (proj1 (renders_text _ _ Hrenders _ _)) in Hr
              | rewrite (proj1 (renders_find _ _ Hrenders _ _)) in Hr ];
        discriminate
      | intros _;
        rewrite ?(proj2 (renders_displayed _ _ Hrenders _ _)),
                ?(proj2 (renders_size _ _ Hrenders _ _)),
                ?(proj2 (renders_editable _ _ Hrenders _ _)),
                ?(proj2 (renders_text _ _ Hrenders _ _)),
                ?(proj2 (renders_find _ _ Hrenders _ _)) ];
      cbv beta iota
  | _ => wp_step
  end.

Ltac finds_done :=
  split; [reflexivity|]; cbn [trace grown logged slept];
  now rewrite ?finds_app, ?app_nil_r.

Lemma try_element_spec (process_id selector : string) (e : Element) (w : World S) :
  wp (try_element env process_id selector e) w
    (fun r w' =>
       r = Ok (if acceptable p selector e then Some e else None)
       /\ finds (trace w') = finds (trace w)).
Proof.
  unfold try_element, acceptable, visible.
  set (el := element_at p e).
  repeat page_step. fold el.
  destruct (el_displayed el) eqn:Hd; cbn [andb].
  2:{ repeat page_step. finds_done. }
  repeat page_step. fold el. cbn [fst].
  destruct (el_width el >? 0) eqn:Hw; cbn [andb].
  2:{ repeat page_step. finds_done. }
  repeat page_step. fold el. cbn [snd].
  destruct (el_height el >? 0) eqn:Hh; cbn [andb].
  2:{ repeat page_step. finds_done. }
  repeat page_step. fold el. cbn [truthy].
  destruct (editable el) eqn:He; cbn [andb].
  2:{ repeat page_step. finds_done. }
  repeat page_step. fold el. cbn [py_lower]. repeat page_step.
  change (existsb _ keywords) with (has_keyword el).
  change (String.eqb selector ("[contenteditable=" +:+ quoted "true" +:+ "]")
          || String.eqb selector "textarea") with (is_fallback selector).
  destruct (has_keyword el); cbn [orb].
  { repeat page_step. finds_done. }
  destruct (is_fallback selector); repeat page_step; finds_done.
Qed.

Lemma try_elements_spec (process_id selector : string) (elements : list Element)
    (w : World S) :
  wp (try_elements env process_id selector elements) w
    (fun r w' =>
       r = Ok (List.find (acceptable p selector) elements)
       /\ finds (trace w') = finds (trace w)).
Proof.
  revert w. induction elements as [|e rest IH]; intros w; cbn [try_elements List.find].
  - wp_steps. auto.
  - wp_step. eapply wp_weaken; [apply try_element_spec|].
    intros r w' [-> Hf]. cbv beta iota.
    destruct (acceptable p selector e).
    + wp_steps. auto.
    + eapply wp_weaken; [apply IH|]. intros r w'' [-> Hf']. split; congruence.
Qed.

Lemma try_selector_spec (driver : Driver) (process_id selector : string)
    (w : World S) :
  wp (try_selector env driver process_id selector) w
    (fun r w' =>
       r = Ok (List.find (acceptable p selector) (matching p selector))
       /\ finds (trace w') = finds (trace w) ++ [selector]).
Proof.
  unfold try_selector. repeat page_step.
  eapply wp_weaken; [apply try_elements_spec|].
  intros r w' [-> Hf]. split; [reflexivity|].
  rewrite Hf. cbn. now rewrite finds_app.
Qed.

Lemma try_selectors_spec (driver : Driver) (process_id : string)
    (selectors : list string) (w : World S) :
  wp (try_selectors env driver process_id selectors) w
    (fun r w' =>
       r = Ok (locate p selectors)
       /\ finds (trace w') = finds (trace w) ++ patterns_tried p selectors).
Proof.
  revert w. induction selectors as [|selector rest IH]; intros w;
    cbn [try_selectors locate patterns_tried].
  - wp_steps. split; [reflexivity|]. now rewrite app_nil_r.
  - wp_step. eapply wp_weaken; [apply try_selector_spec|].
    intros r w' [-> Hf]. cbv beta iota.
    destruct (List.find (acceptable p selector) (matching p selector)).
    + wp_steps. auto.
    + eapply wp_weaken; [apply IH|]. intros r w'' [-> Hf'].
      split; [reflexivity|]. rewrite Hf', Hf. now rewrite <- app_assoc.
Qed.

Lemma after_search (driver : Driver) (process_id : string) (w : World S) :
  wp (bind (try_selectors env driver process_id message_input_selectors)
        (fun found =>
           match found with
           | Some element => ret (Some element)
           | None =>
               bind
                 (try_except
                    (bind (call env EPageSource (env_source env))
                       (fun page_source =>
                          if PyStr.contains "contenteditable"
                               (PyStr.lower page_source)
                          then log_message env
                                 (process_id
                                  +:+ ": Page contains contenteditable elements")
                          else log_message env
                                 (process_id
                                  +:+ ": No contenteditable elements found in page")))
                    (fun _ => ret tt))
                 (fun _ => ret None)
           end)) w
    (fun r w' =>
       r = Ok (locate p message_input_selectors)
       /\ finds (trace w')
          = finds (trace w) ++ patterns_tried p message_input_selectors).
Proof.
  wp_step. eapply wp_weaken; [apply try_selectors_spec|].
  intros r w' [-> Hf]. cbv beta iota.
  destruct (locate p message_input_selectors) as [found|].
  - wp_steps. auto.
  - repeat (wp_step;
            try match goal with
                | |- wp (if ?b then _ else _) _ _ => destruct b
                end);
      (split; [reflexivity|]); cbn [trace grown logged];
      rewrite ?finds_app, ?app_nil_r; exact Hf.
Qed.

Ltac before_search :=
  lazymatch goal with
  | |- wp (bind (try_selectors _ _ _ _) _) _ _ => fail
  | _ => wp_step
  end.

Lemma find_message_input_spec (driver : Driver) (process_id : string) (w : World S) :
  wp (find_message_input env driver process_id) w
    (fun r w' =>
       r = Ok (locate p message_input_selectors)
       /\ finds (trace w')
          = finds (trace w) ++ patterns_tried p message_input_selectors).
Proof.
  unfold find_message_input.
  repeat before_search;
    (eapply wp_weaken; [apply after_search|]);
    intros r w' [-> Hf]; (split; [reflexivity|]);
    rewrite Hf; cbn [trace grown logged slept];
    now rewrite ?finds_app, ?app_nil_r.
Qed.

End Locator.

Lemma find_map_pair {A B} (f : A -> B -> bool) (a : A) (l : list B) :
  List.find (fun c => f (fst c) (snd c)) (List.map (pair a) l)
  = option_map (pair a) (List.find (f a) l).
Proof.
  induction l as [|b l IH]; [reflexivity|]. cbn.
  destruct (f a b); [reflexivity|exact IH].
Qed.

Lemma find_app {A} (f : A -> bool) (l1 l2 : list A) :
  List.find f (l1 ++ l2)
  = match List.find f l1 with Some x => Some x | None => List.find f l2 end.
Proof.
  induction l1 as [|x l1 IH]; [reflexivity|]. cbn.
  destruct (f x); [reflexivity|exact IH].
Qed.

(** [locate] is the first acceptable pair in the order of [candidates]. *)
Lemma locate_first (p : Page) (selectors : list string) :
  locate p selectors
  = option_map snd
      (List.find (fun c => acceptable p (fst c) (snd c)) (candidates p selectors)).
Proof.
  induction selectors as [|selector rest IH]; [reflexivity|].
  cbn [locate candidates flat_map]. rewrite find_app, find_map_pair.
  destruct (List.find (acceptable p selector) (matching p selector));
    [reflexivity|exact IH].
Qed.

Lemma patterns_tried_all (p : Page) (selectors : list string) :
  locate p selectors = None -> patterns_tried p selectors = selectors.
Proof.
  induction selectors as [|selector rest IH]; [reflexivity|].
  cbn [locate patterns_tried].
  destruct (List.find (acceptable p selector) (matching p selector));
    [discriminate|]. intros Hnone. now rewrite IH.
Qed.

(** The locator on a page that holds still and answers every probe: it
    returns the first pair, patterns in their declared order and each
    pattern's matches in document order, whose element is displayed with a
    width and a height above zero, is editable, and has a keyword in its
    label text or was matched by one of the two fallback patterns; each
    pattern is looked up once, in order, up to the one that gave the
    element; and when no pair is acceptable it returns [None] after looking
    up every pattern exactly once. *)
Theorem locator_first_acceptable (S : Type) (RS : RunState S) (env : Env)
    (p : Page) (driver : Driver) (process_id : string) (w : World S) :
  renders env p ->
  let run := find_message_input env driver process_id w in
  fst run
  = Ok (option_map snd
          (List.find (fun c => acceptable p (fst c) (snd c))
             (candidates p message_input_selectors)))
  /\ finds (trace (snd run))
     = finds (trace w) ++ patterns_tried p message_input_selectors
  /\ (fst run = Ok None ->
      finds (trace (snd run)) = finds (trace w) ++ message_input_selectors).
Proof.
  intros Hr run.
  destruct (find_message_input_spec env p Hr driver process_id w) as [Hres Hf].
  fold run in Hres, Hf. rewrite Hf, Hres, <- locate_first.
  split; [reflexivity|]. split; [reflexivity|].
  intros [= Hnone]. now rewrite patterns_tried_all.
Qed.

Lemma chat_env_renders : renders chat_env chat_page.
Proof. split; intros; try split; reflexivity. Qed.

Lemma locator_first_acceptable_witness :
  fst (find_message_input chat_env ChromeDriver "AUTO-1" running_world)
  = Ok (Some 0%nat).
Proof.
  exact (proj1 (locator_first_acceptable _ _ chat_env chat_page ChromeDriver
                  "AUTO-1" running_world chat_env_renders)).
Defined.

(** ** Footprints *)

#[export] Instance AutomationState_Laws : RunStateLaws AutomationState.t.
Proof. split; reflexivity. Qed.

#[export] Instance LockState_Laws : RunStateLaws LockState.t.
Proof. split; reflexivity. Qed.

Section Footprints.
Context {S : Type} `{RunStateLaws S}.
Variable env : Env.

Lemma extends_refl (allowed : Event -> Prop) (w : World S) : extends allowed w w.
Proof.
  split; [|split].
  - exists []. split; [now rewrite app_nil_r|constructor].
  - exists []. now rewrite app_nil_r.
  - auto.
Qed.

Lemma extends_trans (allowed : Event -> Prop) (a b c : World S) :
  extends allowed a b -> extends allowed b c -> extends allowed a c.
Proof.
  intros ((e1 & He1 & Hf1) & (l1 & Hl1) & Hr1) ((e2 & He2 & Hf2) & (l2 & Hl2) & Hr2).
  split; [|split].
  - exists (e1 ++ e2). split; [now rewrite He2, He1, app_assoc|].
    apply Forall_app; auto.
  - exists (l1 ++ l2). now rewrite Hl2, Hl1, app_assoc.
  - auto.
Qed.

Lemma extends_weaken (P Q : Event -> Prop) (a b : World S) :
  (forall ev, P ev -> Q ev) -> extends P a b -> extends Q a b.
Proof.
  intros HPQ ((e1 & He1 & Hf1) & Hl & Hr). split; [|auto].
  exists e1. split; [assumption|]. eapply Forall_impl; eauto.
Qed.

Lemma extends_event (allowed : Event -> Prop) (w : World S) (ev : Event) :
  allowed ev -> extends allowed w (grown w [ev]).
Proof.
  intros Hev. split; [|split]; cbn.
  - exists [ev]. split; [reflexivity|]. now constructor.
  - exists []. now rewrite app_nil_r.
  - auto.
Qed.

Lemma extends_logged (allowed : Event -> Prop) (w : World S) (msg : string) :
  extends allowed w (logged env msg w).
Proof.
  split; [|split]; cbn.
  - exists []. split; [now rewrite app_nil_r|constructor].
  - rewrite rs_logs_set_logs. eauto.
  - now rewrite rs_running_set_logs.
Qed.

Lemma extends_slept (allowed : Event -> Prop) (w : World S) (ms : Z) :
  allowed (ESleep ms) -> extends allowed w (slept env ms w).
Proof.
  intros Hev. split; [|split]; cbn.
  - exists [ESleep ms]. split; [reflexivity|]. now constructor.
  - exists []. rewrite app_nil_r.
    destruct (env_stop env (trace w)); [apply rs_logs_set_running|reflexivity].
  - destruct (env_stop env (trace w)); [intros _; apply rs_running_set_running|auto].
Qed.

Lemma footprint_weaken {A} (P Q : Event -> Prop) (m : M S A) :
  (forall ev, P ev -> Q ev) -> footprint P m -> footprint Q m.
Proof. intros HPQ Hm w. eapply extends_weaken; eauto. Qed.

Lemma footprint_ret {A} (allowed : Event -> Prop) (a : A) :
  footprint allowed (ret a : M S A).
Proof. intros w. apply extends_refl. Qed.

Lemma footprint_raise {A} (allowed : Event -> Prop) (e : string) :
  footprint allowed (raise e : M S A).
Proof. intros w. apply extends_refl. Qed.

Lemma footprint_diverge {A} (allowed : Event -> Prop) :
  footprint allowed (diverge : M S A).
Proof. intros w. apply extends_refl. Qed.

Lemma footprint_bind {A B} (allowed : Event -> Prop) (m : M S A) (k : A -> M S B) :
  footprint allowed m -> (forall a, footprint allowed (k a)) ->
  footprint allowed (bind m k).
Proof.
  intros Hm Hk w. unfold bind. specialize (Hm w).
  destruct (m w) as [[a|e|] w']; cbn in *; [|assumption..].
  eapply extends_trans; [exact Hm|apply Hk].
Qed.

Lemma footprint_try_except {A} (allowed : Event -> Prop) (body : M S A)
    (handler : string -> M S A) :
  footprint allowed body -> (forall e, footprint allowed (handler e)) ->
  footprint allowed (try_except body handler).
Proof.
  intros Hb Hh w. unfold try_except. specialize (Hb w).
  destruct (body w) as [[a|e|] w']; cbn in *; [assumption| |assumption].
  eapply extends_trans; [exact Hb|apply Hh].
Qed.

Lemma footprint_try_finally {A} (allowed : Event -> Prop) (body : M S A)
    (cleanup : M S unit) :
  footprint allowed body -> footprint allowed cleanup ->
  footprint allowed (try_finally body cleanup).
Proof.
  intros Hb Hc w. unfold try_finally. specialize (Hb w).
  destruct (body w) as [[a|e|] w']; cbn in *; [| |assumption];
    specialize (Hc w'); destruct (cleanup w') as [[c|e'|] w'']; cbn in *;
    eapply extends_trans; eauto.
Qed.

Lemma footprint_call {A} (allowed : Event -> Prop) (ev : Event)
    (answer : list Event -> A) :
  allowed ev -> footprint allowed (call env ev answer).
Proof.
  intros Hev w. unfold call.
  destruct (env_raises env (trace w) ev); cbn; now apply extends_event.
Qed.

Lemma footprint_execute_script (allowed : Event -> Prop) (js : Script)
    (args : list Arg) :
  allowed (EExecuteScript js args) -> footprint allowed (execute_script env js args).
Proof. apply footprint_call. Qed.

Lemma footprint_sleep (allowed : Event -> Prop) (ms : Z) :
  allowed (ESleep ms) -> footprint allowed (sleep env ms).
Proof.
  intros Hev w. unfold sleep. destruct (ms <? 0); [apply extends_refl|].
  destruct (max_sleep_ms <? ms); [apply extends_refl|].
  pose proof (extends_slept allowed w ms Hev) as Hs. unfold slept in Hs.
  unfold record. now destruct (env_stop env (trace w)).
Qed.

Lemma footprint_log (allowed : Event -> Prop) (msg : string) :
  footprint allowed (log_message env msg).
Proof. intros w. apply extends_logged. Qed.

Lemma footprint_for_each {A} (allowed : Event -> Prop) (l : list A)
    (body : A -> M S unit) :
  (forall x, footprint allowed (body x)) -> footprint allowed (for_each l body).
Proof.
  intros Hb. induction l as [|x l IH]; cbn [for_each].
  - apply footprint_ret.
  - apply footprint_bind; auto.
Qed.

Lemma footprint_py_lower (allowed : Event -> Prop) (v : Value) :
  footprint allowed (py_lower v : M S string).
Proof. destruct v; intros w; apply extends_refl. Qed.

End Footprints.

(** One layer of a thread body, for footprints. *)
Ltac fp_step :=
  lazymatch goal with
  | |- footprint _ (bind _ _) => apply footprint_bind; [|intros ?]
  | |- footprint _ (try_except _ _) => apply footprint_try_except; [|intros ?]
  | |- footprint _ (try_finally _ _) => apply footprint_try_finally
  | |- footprint _ (ret _) => apply footprint_ret
  | |- footprint _ (raise _) => apply footprint_raise
  | |- footprint _ diverge => apply footprint_diverge
  | |- footprint _ (log_message _ _) => apply footprint_log
  | |- footprint _ (py_lower _) => apply footprint_py_lower
  | |- footprint _ (sleep _ _) => apply footprint_sleep; reflexivity
  | |- footprint _ (execute_script _ _ _) =>
      apply footprint_execute_script; reflexivity
  | |- footprint _ (call _ _ _) => apply footprint_call; reflexivity
  | |- footprint _ (for_each _ _) => apply footprint_for_each; intros ?
  | |- footprint _ (if ?b then _ else _) => destruct b
  | |- footprint _ (match ?o with Some _ => _ | None => _ end) => destruct o
  end.

Section LocatorFootprint.
Context {S : Type} `{RunStateLaws S}.
Variable env : Env.

Lemma try_elements_footprint (process_id selector : string)
    (elements : list Element) :
  footprint (fun ev => locator_event ev = true)
    (try_elements env process_id selector elements : M S _).
Proof.
  induction elements as [|e rest IH]; cbn [try_elements].
  - apply footprint_ret.
  - apply footprint_bind; [unfold try_element; repeat fp_step|].
    intros [found|]; [apply footprint_ret|exact IH].
Qed.

Lemma try_selectors_footprint (driver : Driver) (process_id : string)
    (selectors : list string) :
  footprint (fun ev => locator_event ev = true)
    (try_selectors env driver process_id selectors : M S _).
Proof.
  induction selectors as [|selector rest IH]; cbn [try_selectors].
  - apply footprint_ret.
  - apply footprint_bind.
    + unfold try_selector. repeat fp_step. apply try_elements_footprint.
    + intros [found|]; [apply footprint_ret|exact IH].
Qed.

Lemma find_message_input_footprint (driver : Driver) (process_id : string) :
  footprint (fun ev => locator_event ev = true)
    (find_message_input env driver process_id : M S _).
Proof.
  unfold find_message_input.
  repeat (fp_step || apply try_selectors_footprint).
Qed.

End LocatorFootprint.

(** ** Runs that cannot raise *)

Section Unfailing.
Context {S : Type} `{RunState S}.
Variable env : Env.

Lemma unfailing_ret {A} (a : A) : unfailing (ret a : M S A).
Proof. intros w e. discriminate. Qed.

Lemma unfailing_diverge {A} : unfailing (diverge : M S A).
Proof. intros w e. discriminate. Qed.

Lemma unfailing_bind {A B} (m : M S A) (k : A -> M S B) :
  unfailing m -> (forall a, unfailing (k a)) -> unfailing (bind m k).
Proof.
  intros Hm Hk w e. unfold bind. specialize (Hm w).
  destruct (m w) as [[a|e'|] w']; cbn in *.
  - apply Hk.
  - now destruct (Hm e').
  - discriminate.
Qed.

Lemma unfailing_try_except {A} (body : M S A) (handler : string -> M S A) :
  (forall e, unfailing (handler e)) -> unfailing (try_except body handler).
Proof.
  intros Hh w e. unfold try_except.
  destruct (body w) as [[a|e'|] w']; cbn; [discriminate|apply Hh|discriminate].
Qed.

Lemma unfailing_try_finally {A} (body : M S A) (cleanup : M S unit) :
  unfailing body -> unfailing cleanup -> unfailing (try_finally body cleanup).
Proof.
  intros Hb Hc w e. unfold try_finally. specialize (Hb w).
  destruct (body w) as [[a|e'|] w']; cbn in *; [| |discriminate].
  - specialize (Hc w'). destruct (cleanup w') as [[c|e''|] w'']; cbn in *;
      [discriminate|now destruct (Hc e'')|discriminate].
  - now destruct (Hb e').
Qed.

Lemma unfailing_log (msg : string) : unfailing (log_message env msg : M S unit).
Proof. intros w e. discriminate. Qed.

Lemma unfailing_sleep (ms : Z) :
  0 <= ms <= max_sleep_ms -> unfailing (sleep env ms : M S unit).
Proof.
  intros Hms w e. unfold sleep. destruct (ms <? 0) eqn:Hneg; [lia|].
  destruct (max_sleep_ms <? ms) eqn:Hbig; [lia|].
  destruct (env_stop env (trace w)); discriminate.
Qed.

Lemma unfailing_modify_state (f : S -> S) : unfailing (modify_state f).
Proof. intros w e. discriminate. Qed.

Lemma unfailing_modify_db (f : Db -> Db) : unfailing (modify_db f : M S unit).
Proof. intros w e. discriminate. Qed.

Lemma unfailing_get_state : unfailing (get_state : M S S).
Proof. intros w e. discriminate. Qed.

Lemma unfailing_enter (fn : string) : unfailing (enter fn : M S unit).
Proof. intros w e. discriminate. Qed.

Lemma unfailing_quit_driver (driver : Driver) (closed : string) :
  unfailing (quit_driver env driver closed : M S unit).
Proof. apply unfailing_try_except. intros e. apply unfailing_ret. Qed.

Lemma unfailing_add_cookies (driver : Driver) (cookies : option string) :
  unfailing (add_cookies env driver cookies : M S unit).
Proof. apply unfailing_try_except. intros e. apply unfailing_ret. Qed.

Lemma unfailing_try_elements (process_id selector : string)
    (elements : list Element) :
  unfailing (try_elements env process_id selector elements : M S _).
Proof.
  induction elements as [|e rest IH]; cbn [try_elements].
  - apply unfailing_ret.
  - apply unfailing_bind.
    + apply unfailing_try_except. intros ?. apply unfailing_ret.
    + intros [found|]; [apply unfailing_ret|exact IH].
Qed.

Lemma unfailing_try_selectors (driver : Driver) (process_id : string)
    (selectors : list string) :
  unfailing (try_selectors env driver process_id selectors : M S _).
Proof.
  induction selectors as [|selector rest IH]; cbn [try_selectors].
  - apply unfailing_ret.
  - apply unfailing_bind.
    + apply unfailing_try_except. intros ?. apply unfailing_ret.
    + intros [found|]; [apply unfailing_ret|exact IH].
Qed.

End Unfailing.

Ltac uf_step :=
  lazymatch goal with
  | |- unfailing (bind _ _) => apply unfailing_bind; [|intros ?]
  | |- unfailing (try_except _ _) => apply unfailing_try_except; intros ?
  | |- unfailing (try_finally _ _) => apply unfailing_try_finally
  | |- unfailing (ret _) => apply unfailing_ret
  | |- unfailing diverge => apply unfailing_diverge
  | |- unfailing (log_message _ _) => apply unfailing_log
  | |- unfailing (sleep _ _) => apply unfailing_sleep; unfold max_sleep_ms; lia
  | |- unfailing (modify_state _) => apply unfailing_modify_state
  | |- unfailing (modify_db _) => apply unfailing_modify_db
  | |- unfailing get_state => apply unfailing_get_state
  | |- unfailing (enter _) => apply unfailing_enter
  | |- unfailing (quit_driver _ _ _) => apply unfailing_quit_driver
  | |- unfailing (add_cookies _ _ _) => apply unfailing_add_cookies
  | |- unfailing (try_selectors _ _ _ _) => apply unfailing_try_selectors
  | |- unfailing (if ?b then _ else _) => destruct b
  | |- unfailing (match ?o with Some _ => _ | None => _ end) => destruct o
  end.

(** ** Runs that come to an end *)

Section Halting.
Context {S : Type} `{RunState S}.
Variable env : Env.

Lemma halting_ret {A} (a : A) : halting (ret a : M S A).
Proof. intros w. discriminate. Qed.

Lemma halting_raise {A} (e : string) : halting (raise e : M S A).
Proof. intros w. discriminate. Qed.

Lemma halting_bind {A B} (m : M S A) (k : A -> M S B) :
  halting m -> (forall a, halting (k a)) -> halting (bind m k).
Proof.
  intros Hm Hk w. unfold bind. specialize (Hm w).
  destruct (m w) as [[a|e'|] w']; cbn in *;
    [apply Hk|discriminate|now destruct Hm].
Qed.

Lemma halting_try_except {A} (body : M S A) (handler : string -> M S A) :
  halting body -> (forall e, halting (handler e)) ->
  halting (try_except body handler).
Proof.
  intros Hb Hh w. unfold try_except. specialize (Hb w).
  destruct (body w) as [[a|e'|] w']; cbn in *;
    [discriminate|apply Hh|now destruct Hb].
Qed.

Lemma halting_call {A} (ev : Event) (answer : list Event -> A) :
  halting (call env ev answer : M S A).
Proof.
  intros w. unfold call. destruct (env_raises env (trace w) ev); discriminate.
Qed.

Lemma halting_sleep (ms : Z) : halting (sleep env ms : M S unit).
Proof.
  intros w. unfold sleep. destruct (ms <? 0); [discriminate|].
  destruct (max_sleep_ms <? ms); [discriminate|].
  destruct (env_stop env (trace w)); discriminate.
Qed.

Lemma halting_log (msg : string) : halting (log_message env msg : M S unit).
Proof. intros w. discriminate. Qed.

Lemma halting_enter (fn : string) : halting (enter fn : M S unit).
Proof. intros w. discriminate. Qed.

Lemma halting_py_lower (v : Value) : halting (py_lower v : M S string).
Proof. destruct v; intros w; discriminate. Qed.

End Halting.

Ltac halt_step :=
  lazymatch goal with
  | |- halting (bind _ _) => apply halting_bind; [|intros ?]
  | |- halting (try_except _ _) => apply halting_try_except; [|intros ?]
  | |- halting (ret _) => apply halting_ret
  | |- halting (raise _) => apply halting_raise
  | |- halting (log_message _ _) => apply halting_log
  | |- halting (enter _) => apply halting_enter
  | |- halting (py_lower _) => apply halting_py_lower
  | |- halting (sleep _ _) => apply halting_sleep
  | |- halting (execute_script _ _ _) => apply halting_call
  | |- halting (call _ _ _) => apply halting_call
  | |- halting (if ?b then _ else _) => destruct b
  | |- halting (match ?o with Some _ => _ | None => _ end) => destruct o
  end.

Section LocatorHalts.
Context {S : Type} `{RunState S}.
Variable env : Env.

Lemma halting_try_elements (process_id selector : string)
    (elements : list Element) :
  halting (try_elements env process_id selector elements : M S _).
Proof.
  induction elements as [|e rest IH]; cbn [try_elements].
  - apply halting_ret.
  - apply halting_bind; [unfold try_element; repeat halt_step|].
    intros [found|]; [apply halting_ret|exact IH].
Qed.

Lemma halting_try_selectors (driver : Driver) (process_id : string)
    (selectors : list string) :
  halting (try_selectors env driver process_id selectors : M S _).
Proof.
  induction selectors as [|selector rest IH]; cbn [try_selectors].
  - apply halting_ret.
  - apply halting_bind.
    + unfold try_selector. repeat halt_step. apply halting_try_elements.
    + intros [found|]; [apply halting_ret|exact IH].
Qed.

Lemma halting_find_message_input (driver : Driver) (process_id : string) :
  halting (find_message_input env driver process_id : M S _).
Proof.
  unfold find_message_input.
  repeat (halt_step || apply halting_try_selectors).
Qed.

Lemma unfailing_find_message_input (driver : Driver) (process_id : string) :
  unfailing (find_message_input env driver process_id : M S _).
Proof. unfold find_message_input. repeat uf_step. Qed.

End LocatorHalts.

(** The locator swallows every exception of the browser: whatever the
    environment, it returns an element or [None]; all it asks of the
    browser is to scroll, to read title, address and page source, to find
    elements, and to probe and click what it found; it only adds lines to
    the log, and it does not set a cleared running flag. *)
Theorem find_message_input_total (S : Type) (RS : RunState S)
    (RL : RunStateLaws S) (env : Env) (driver : Driver) (process_id : string)
    (w : World S) :
  (exists found, fst (find_message_input env driver process_id w) = Ok found)
  /\ extends (fun ev => locator_event ev = true) w
       (snd (find_message_input env driver process_id w)).
Proof.
  split; [|apply find_message_input_footprint].
  pose proof (unfailing_find_message_input env driver process_id w) as Hu.
  pose proof (halting_find_message_input env driver process_id w) as Hh.
  destruct (fst (find_message_input env driver process_id w)) as [found|e|].
  - eauto.
  - now destruct (Hu e).
  - now destruct Hh.
Qed.

Lemma find_message_input_total_witness :
  exists found,
    fst (find_message_input stale_env ChromeDriver "AUTO-1" running_world)
    = Ok found.
Proof.
  exact (proj1 (find_message_input_total _ _ _ stale_env ChromeDriver "AUTO-1"
                  running_world)).
Defined.

(** ** The account store *)

(** Creating an account. A taken name is refused and nothing is written.
    A free name gives an account that [verify_user] accepts with the
    password given and with no other, whose lock flag is off and whose lock
    configuration is the empty one; the accounts and flags of all other
    names are what they were. *)
Theorem create_user_account (username pw : string) (d : Db) :
  let result := create_user username pw d in
  (users d !! username <> None ->
   fst (fst result) = false /\ snd result = d)
  /\ (users d !! username = None ->
      fst (fst result) = true
      /\ (forall pw', verify_user username pw' (snd result)
                      = if String.eqb pw pw' then Some username else None)
      /\ get_lock_enabled username (snd result) = false
      /\ get_lock_config username (snd result)
         = {| chat_id := Some ""; locked_group_name := Some "";
              locked_nicknames := ∅; cookies := Some "" |}
      /\ (forall other pw',
            other <> username ->
            verify_user other pw' (snd result) = verify_user other pw' d
            /\ get_lock_enabled other (snd result) = get_lock_enabled other d
            /\ get_lock_config other (snd result) = get_lock_config other d)).
Proof.
  cbv zeta. unfold create_user. split.
  - intros Htaken. destruct (users d !! username); [auto|congruence].
  - intros Hfree. rewrite Hfree. cbn [fst snd]. split; [reflexivity|].
    split; [|split; [|split]].
    + intros pw'. unfold verify_user. cbn [users].
      now rewrite lookup_insert_eq.
    + unfold get_lock_enabled. cbn [users]. now rewrite lookup_insert_eq.
    + unfold get_lock_config. cbn [lock_config]. now rewrite lookup_insert_eq.
    + intros other pw' Hne.
      unfold verify_user, get_lock_enabled, get_lock_config.
      cbn [users lock_config].
      rewrite !lookup_insert_ne by congruence. auto.
Qed.

Lemma create_user_account_witness :
  verify_user "bob" "secret" (snd (create_user "bob" "secret" demo_db))
  = Some "bob"
  /\ snd (create_user "ann" "other" demo_db) = demo_db.
Proof.
  split.
  - exact (proj1 (proj2 (proj2 (create_user_account "bob" "secret" demo_db)
                                  eq_refl)) "secret").
  - apply (proj1 (create_user_account "ann" "other" demo_db)). discriminate.
Defined.

(** The persisted lock flag. Written for a user with an account it reads
    back as written; written for a name without one it changes nothing and
    reads false; and writing it touches no password, no other user's flag
    and no lock configuration. *)
Theorem lock_flag_round_trip (username : string) (value : bool) (d : Db) :
  (users d !! username <> None ->
   get_lock_enabled username (set_lock_enabled username value d) = value)
  /\ (users d !! username = None ->
      set_lock_enabled username value d = d
      /\ get_lock_enabled username d = false)
  /\ (forall name pw,
        verify_user name pw (set_lock_enabled username value d)
        = verify_user name pw d)
  /\ (forall other,
        other <> username ->
        get_lock_enabled other (set_lock_enabled username value d)
        = get_lock_enabled other d)
  /\ (forall name,
        get_lock_config name (set_lock_enabled username value d)
        = get_lock_config name d).
Proof.
  split; [|split; [|split; [|split]]].
  - intros Hhas. rewrite get_set_lock_enabled.
    destruct (users d !! username); [reflexivity|congruence].
  - intros Hnone. unfold set_lock_enabled, get_lock_enabled. rewrite Hnone.
    split; [now destruct d|reflexivity].
  - intros name pw. unfold verify_user, set_lock_enabled. cbn [users].
    destruct (users d !! username) as [row|] eqn:Hrow; [|reflexivity].
    destruct (decide (name = username)) as [->|Hne].
    + now rewrite lookup_insert_eq, Hrow.
    + now rewrite lookup_insert_ne by congruence.
  - intros other Hne. unfold get_lock_enabled, set_lock_enabled. cbn [users].
    destruct (users d !! username) as [row|]; [|reflexivity].
    now rewrite lookup_insert_ne by congruence.
  - reflexivity.
Qed.

Lemma lock_flag_round_trip_witness :
  get_lock_enabled "ann" (set_lock_enabled "ann" true demo_db) = true
  /\ get_lock_enabled "bob" (set_lock_enabled "bob" true demo_db) = false.
Proof.
  split.
  - apply (proj1 (lock_flag_round_trip "ann" true demo_db)). discriminate.
  - pose proof (proj1 (proj2 (lock_flag_round_trip "bob" true demo_db)) eq_refl)
      as [Hsame Hoff].
    now rewrite Hsame.
Defined.

(** The lock configuration reads back as it was saved, with the defaults of
    the two [or]: no nicknames read as the empty dictionary, no cookies and
    no chat id or name as the empty text. Saving it for one name changes no
    other name's configuration, and no account or flag. *)
Theorem lock_config_round_trip (username : string)
    (chat locked : option string) (nicknames : option (gmap string string))
    (cookie_text : option string) (d : Db) :
  let d' := update_lock_config username chat locked nicknames cookie_text d in
  get_lock_config username d'
  = {| chat_id := Some (or_empty chat);
       locked_group_name := Some (or_empty locked);
       locked_nicknames := match nicknames with Some m => m | None => ∅ end;
       cookies := Some (or_empty cookie_text) |}
  /\ (forall other,
        other <> username -> get_lock_config other d' = get_lock_config other d)
  /\ users d' = users d.
Proof.
  cbv zeta. unfold get_lock_config, update_lock_config. cbn [lock_config users].
  rewrite lookup_insert_eq. cbn. split; [reflexivity|]. split; [|reflexivity].
  intros other Hne. now rewrite lookup_insert_ne by congruence.
Qed.

Lemma lock_config_round_trip_witness :
  get_lock_config "ann"
    (update_lock_config "bob" (Some "7") None None None demo_db)
  = get_lock_config "ann" demo_db.
Proof.
  apply (proj1 (proj2 (lock_config_round_trip "bob" (Some "7") None None None
                         demo_db))).
  discriminate.
Defined.
